(** * osrswiki: the price-API client of [client.go], embedded in Rocq

    The client issues one HTTP GET per operation and decodes a JSON body.
    The Go standard library it calls ([strconv], [net/url], [encoding/json],
    [net/http]) is modelled by the behaviour the client relies on; the four
    operations and [doRequest] follow [client.go] statement by statement. *)

From Stdlib Require Import ZArith String Ascii List Lia Bool DecimalString
  DecimalPos.
From stdpp Require Import gmap strings list.

Local Open Scope string_scope.
Local Open Scope Z_scope.

#[local] Set Warnings "-register-all".

(** ** Machine integers

    Go's fixed-width integers are [Z] values; a conversion to a narrower or a
    signed type wraps around, written out here. *)

Definition uint64 (z : Z) : Z := z mod 2 ^ 64.
Definition int64 (z : Z) : Z := (z + 2 ^ 63) mod 2 ^ 64 - 2 ^ 63.
Definition int16 (z : Z) : Z := (z + 2 ^ 15) mod 2 ^ 16 - 2 ^ 15.

Definition byte_of (c : ascii) : Z := Z.of_N (N_of_ascii c).

(** ** strconv *)

Module strconv.

Inductive Cause := ErrSyntax | ErrRange.

(** [*strconv.NumError]. *)
Record NumError := { Func : string; Num : string; Err : Cause }.

Definition syntaxError (fn str : string) : NumError :=
  {| Func := fn; Num := str; Err := ErrSyntax |}.
Definition rangeError (fn str : string) : NumError :=
  {| Func := fn; Num := str; Err := ErrRange |}.

(** [lower(c)] is [c | ('x' - 'X')]. *)
Definition lower (c : Z) : Z := Z.lor c 32.

(** The digit a byte stands for, if any (the [switch] of ParseUint's loop;
    the underscore case needs base 0). *)
Definition digit (c : ascii) : option Z :=
  let b := byte_of c in
  if (48 <=? b) && (b <=? 57) then Some (b - 48)
  else if (97 <=? lower b) && (lower b <=? 122) then Some (lower b - 97 + 10)
  else None.

(** The loop of [ParseUint] over the bytes of [s], with accumulator [n];
    [cutoff] is the least number whose product with [base] overflows
    uint64. *)
Fixpoint ParseUint_loop (base cutoff maxVal : Z) (s : string) (n : Z)
  : Z * option Cause :=
  match s with
  | EmptyString => (n, None)
  | String c s' =>
      match digit c with
      | None => (0, Some ErrSyntax)
      | Some d =>
          if base <=? d then (0, Some ErrSyntax)
          else if cutoff <=? n then (maxVal, Some ErrRange)
          else
            let n := uint64 (n * base) in
            let n1 := uint64 (n + d) in
            if (n1 <? n) || (maxVal <? n1) then (maxVal, Some ErrRange)
            else ParseUint_loop base cutoff maxVal s' n1
      end
  end.

(** [strconv.ParseUint(s, base, bitSize)] for an explicit base between 2
    and 36 and a bit size between 0 and 64, which is how the client and
    encoding/json call it. *)
Definition ParseUint (s : string) (base bitSize : Z) : Z * option NumError :=
  match s with
  | EmptyString => (0, Some (syntaxError "ParseUint" s))
  | _ =>
      let bitSize := if bitSize =? 0 then 64 else bitSize in
      let cutoff := (2 ^ 64 - 1) / base + 1 in
      let maxVal := 2 ^ bitSize - 1 in
      match ParseUint_loop base cutoff maxVal s 0 with
      | (n, None) => (n, None)
      | (n, Some ErrSyntax) => (n, Some (syntaxError "ParseUint" s))
      | (n, Some ErrRange) => (n, Some (rangeError "ParseUint" s))
      end
  end.

(** [strconv.ParseInt(s, base, bitSize)], same domain. *)
Definition ParseInt (s : string) (base bitSize : Z) : Z * option NumError :=
  match s with
  | EmptyString => (0, Some (syntaxError "ParseInt" s))
  | String c rest =>
      let s0 := s in
      let '(neg, s) :=
        if Ascii.eqb c "+"%char then (false, rest)
        else if Ascii.eqb c "-"%char then (true, rest)
        else (false, s) in
      let '(un, err) := ParseUint s base bitSize in
      match err with
      | Some {| Err := ErrSyntax |} => (0, Some (syntaxError "ParseInt" s0))
      | _ =>
          let bitSize := if bitSize =? 0 then 64 else bitSize in
          let cutoff := 2 ^ (bitSize - 1) in
          if negb neg && (cutoff <=? un) then
            (cutoff - 1, Some (rangeError "ParseInt" s0))
          else if neg && (cutoff <? un) then
            (- cutoff, Some (rangeError "ParseInt" s0))
          else
            let n := int64 un in
            (if neg then int64 (- n) else n, None)
      end
  end.

(** [strconv.FormatInt(i, 10)], which is also what [fmt.Sprintf("%d", i)]
    prints: the decimal digits of [i], with a minus sign when negative. *)
Definition FormatInt (i : Z) : string :=
  DecimalString.NilZero.string_of_int (Z.to_int i).

End strconv.

(** ** net/url *)

Module url.

Inductive Error :=
| InvalidControlCharacter          (* "net/url: invalid control character in URL" *)
| EscapeError (s : string).        (* "invalid URL escape ..." *)

(** [strings.Cut(s, sep)] for a one-byte separator: the text before the
    first [sep] and the text after it (all of [s] when there is none). *)
Fixpoint Cut (sep : ascii) (s : string) : string * string :=
  match s with
  | EmptyString => (EmptyString, EmptyString)
  | String c rest =>
      if Ascii.eqb c sep then (EmptyString, rest)
      else let '(before, after) := Cut sep rest in (String c before, after)
  end.

Fixpoint stringContainsCTLByte (s : string) : bool :=
  match s with
  | EmptyString => false
  | String c rest =>
      (byte_of c <? 32) || (byte_of c =? 127) || stringContainsCTLByte rest
  end.

Definition ishex (c : ascii) : bool :=
  let b := byte_of c in
  ((48 <=? b) && (b <=? 57)) || ((97 <=? b) && (b <=? 102))
  || ((65 <=? b) && (b <=? 70)).

(** The failure case of [unescape] in path and fragment mode: the first
    percent sign that is not followed by two hex digits, with at most two
    bytes after it. *)
Fixpoint badEscape (s : string) : option string :=
  match s with
  | EmptyString => None
  | String c rest =>
      if Ascii.eqb c "%"%char then
        match rest with
        | String a (String b rest') =>
            if ishex a && ishex b then badEscape rest'
            else Some (String c (String a (String b EmptyString)))
        | _ => Some s
        end
      else badEscape rest
  end.

(** The error of [url.Parse(rawURL)], if any, for a [rawURL] that starts
    with a scheme and an authority free of percent signs, as every target
    of this client does ([pricesEndpoint] comes first).  Parse cuts the
    fragment off, refuses control bytes in what is left, cuts the query
    off, unescapes the path (the query is left raw) and then the
    fragment. *)
Definition Parse (rawURL : string) : option Error :=
  let '(u, frag) := Cut "#" rawURL in
  if stringContainsCTLByte u then Some InvalidControlCharacter
  else
    let '(rest, _) := Cut "?" u in
    match badEscape rest with
    | Some e => Some (EscapeError e)
    | None =>
        match badEscape frag with
        | Some e => Some (EscapeError e)
        | None => None
        end
    end.

End url.

(** ** encoding/json *)

Module json.

(** A JSON document as the decoder walks it: member names and strings
    unquoted, numbers as their literal text, members and elements in
    document order (a name may repeat). *)
Inductive Value :=
| Null
| Bool (b : bool)
| Number (lit : string)
| Str (s : string)
| Array (elems : list Value)
| Object (members : list (string * Value)).

(** A byte slice handed to [Unmarshal], as the scanner ([checkValid])
    sees it: not a JSON text, or the document it spells. *)
Inductive Text :=
| Invalid
| Document (v : Value).

Inductive Error :=
| SyntaxError
| UnmarshalTypeError (value : string).

(** A decoder stores a value into a Go variable of type [T]; a type
    mismatch leaves the variable alone and is reported, and decoding goes
    on. *)
Definition Decoder (T : Type) : Type := Value -> T -> T * option Error.

(** [d.saveError]: only the first error is kept. *)
Definition saveError (saved new : option Error) : option Error :=
  match saved with
  | Some _ => saved
  | None => new
  end.

Definition mismatch (v : Value) : Error :=
  match v with
  | Null => UnmarshalTypeError "null"
  | Bool _ => UnmarshalTypeError "bool"
  | Number _ => UnmarshalTypeError "number"
  | Str _ => UnmarshalTypeError "string"
  | Array _ => UnmarshalTypeError "array"
  | Object _ => UnmarshalTypeError "object"
  end.

(** Into [int64] (and [int], taken as 64 bits wide). *)
Definition Int : Decoder Z := fun v n =>
  match v with
  | Null => (n, None)
  | Number lit =>
      match strconv.ParseInt lit 10 64 with
      | (i, None) => (i, None)
      | _ => (n, Some (UnmarshalTypeError ("number " ++ lit)))
      end
  | _ => (n, Some (mismatch v))
  end.

Definition String_ : Decoder string := fun v s =>
  match v with
  | Null => (s, None)
  | Str x => (x, None)
  | _ => (s, Some (mismatch v))
  end.

Definition Bool_ : Decoder bool := fun v b =>
  match v with
  | Null => (b, None)
  | Bool x => (x, None)
  | _ => (b, Some (mismatch v))
  end.

(** [foldName]: ASCII letters to upper case; the two runes that fold to
    an ASCII letter, U+017F (bytes 197 191) to S and U+212A (bytes 226 132
    170) to K.  Other runes fold among runes above U+007F and are copied:
    names are compared with ASCII field names only. *)
Fixpoint foldName (s : string) : string :=
  match s with
  | EmptyString => EmptyString
  | String c s1 =>
      let b := byte_of c in
      if (97 <=? b) && (b <=? 122) then
        String (ascii_of_N (Z.to_N (b - 32))) (foldName s1)
      else
        match s1 with
        | String c1 s2 =>
            if (b =? 197) && (byte_of c1 =? 191) then
              String "S" (foldName s2)
            else
              match s2 with
              | String c2 s3 =>
                  if (b =? 226) && (byte_of c1 =? 132) && (byte_of c2 =? 170)
                  then String "K" (foldName s3)
                  else String c (foldName s1)
              | EmptyString => String c (foldName s1)
              end
        | EmptyString => String c (foldName s1)
        end
  end.

(** A struct field: its JSON name (the tag) and how a value is stored
    into it. *)
Record Field (S : Type) := { name : string; store : Decoder S }.
Arguments name {S} _.
Arguments store {S} _.

(** The field a member name selects: an exact match first, else a match
    of the folded names. *)
Definition lookupField {S} (fields : list (Field S)) (key : string)
  : option (Field S) :=
  match find (fun f => String.eqb (name f) key) fields with
  | Some f => Some f
  | None =>
      find (fun f => String.eqb (foldName (name f)) (foldName key)) fields
  end.

(** Into a struct: members are stored in document order, unknown names
    are skipped, [null] changes nothing. *)
Definition Struct {S} (fields : list (Field S)) : Decoder S := fun v s =>
  match v with
  | Null => (s, None)
  | Object members =>
      fold_left
        (fun '(s, err) '(key, x) =>
           match lookupField fields key with
           | Some f => let '(s', e) := store f x s in (s', saveError err e)
           | None => (s, err)
           end)
        members (s, None)
  | _ => (s, Some (mismatch v))
  end.

(** Into a [map[string]T] ([None] is the nil map): a nil map is allocated
    first, an existing map is kept and added to; every member is decoded
    into a fresh zero [T] and stored under its name; [null] makes the map
    nil. *)
Definition Map {T} (zero : T) (elem : Decoder T)
  : Decoder (option (gmap string T)) := fun v m =>
  match v with
  | Null => (None, None)
  | Object members =>
      let '(m', err) :=
        fold_left
          (fun '(m, err) '(key, x) =>
             let '(t, e) := elem x zero in (<[key := t]> m, saveError err e))
          members (default ∅ m, None) in
      (Some m', err)
  | _ => (m, Some (mismatch v))
  end.

(** The elements of an array, the i-th decoded into the i-th old cell when
    the slice had one and into a zero [T] otherwise. *)
Fixpoint elements {T} (zero : T) (elem : Decoder T) (xs : list Value)
  (old : list T) : list T * option Error :=
  match xs with
  | [] => ([], None)
  | x :: xs' =>
      let '(t, e) := elem x (hd zero old) in
      let '(ts, e') := elements zero elem xs' (tl old) in
      (t :: ts, saveError e e')
  end.

(** Into a [[]T] ([None] is the nil slice): the slice ends up as long as
    the array; [null] makes it nil.  (Cells between length and capacity,
    which a third array for the same variable could expose, are taken as
    zero.) *)
Definition Slice {T} (zero : T) (elem : Decoder T)
  : Decoder (option (list T)) := fun v old =>
  match v with
  | Null => (None, None)
  | Array xs =>
      let '(ts, err) := elements zero elem xs (default [] old) in
      (Some ts, err)
  | _ => (old, Some (mismatch v))
  end.

(** [json.Unmarshal(data, &v)]; [data] is nil ([None]) or a byte slice. *)
Definition Unmarshal {T} (dec : Decoder T) (data : option Text) (v : T)
  : T * option Error :=
  match data with
  | Some (Document doc) => dec doc v
  | _ => (v, Some SyntaxError)
  end.

End json.

(** ** time *)

Module time.

(** A [time.Time] by its Unix reading: whole seconds since the epoch and
    the nanoseconds within the second. *)
Record Time := { sec : Z; nsec : Z }.

Definition Unix (t : Time) : Z := sec t.

End time.

(** ** net/http *)

Module http.

Definition MethodGet : string := "GET".
Definition StatusOK : Z := 200.

(** A request as [doRequest] makes it: method, the target it was created
    from, the User-Agent header and the parameters added to the target's
    query ([url.Values.Encode] writes them in key order, escaped). *)
Record Request := {
  Method : string;
  URL : string;
  UserAgent : string;
  Query : gmap string string
}.

(** A response body as [io.ReadAll] finds it. *)
Inductive Body :=
| Broken (err : string)
| Bytes (data : json.Text).

Record Response := { StatusCode : Z; body : Body }.

(** What [Client.Do] comes back with: an error (connection, timeout,
    cancelled context) or a response. *)
Inductive RoundTrip :=
| Failed (err : string)
| Responded (resp : Response).

(** The transport, seen from the client: the outcome of each request. *)
Definition Client : Type := Request -> RoundTrip.

(** [http.NewRequestWithContext(ctx, method, url, nil)] with a non-nil
    context and a valid method: fails when the target does not parse. *)
Definition NewRequestWithContext (method rawurl : string)
  : Request + url.Error :=
  match url.Parse rawurl with
  | Some err => inr err
  | None =>
      inl {| Method := method; URL := rawurl; UserAgent := "";
             Query := ∅ |}
  end.

End http.

(** ** The Go runtime: effects of a call

    An operation runs against a transport; the state threaded through it is
    the list of requests handed to [Client.Do] so far, oldest first. *)

Definition IO (A : Type) : Type := list http.Request -> A * list http.Request.

#[export] Instance IO_ret : MRet IO := fun A a log => (a, log).
#[export] Instance IO_bind : MBind IO := fun A B k m log =>
  let '(a, log') := m log in k a log'.

(** [range] over a Go map visits every entry once, in an order the runtime
    picks. *)
Record MapOrder := {
  mapiter : forall V, gmap string V -> list (string * V);
  mapiter_perm : forall V (m : gmap string V), mapiter V m ≡ₚ map_to_list m
}.

(** A [for ... range] loop over [entries] with loop state [S]; the body
    goes on with a new state or returns [R] from the enclosing function. *)
Fixpoint forRange {K V S R} (body : K -> V -> S -> S + R)
  (entries : list (K * V)) (s : S) : S + R :=
  match entries with
  | [] => inl s
  | (k, v) :: rest =>
      match body k v s with
      | inl s' => forRange body rest s'
      | inr r => inr r
      end
  end.

(** ** client.go *)

Definition pricesEndpoint : string := "https://prices.runescape.wiki/api/v1".

Record Client := { userAgent : string; httpClient : http.Client }.

(** [NewClient]; the transport of the fresh [http.Client] is the network,
    here an argument. *)
Definition NewClient (userAgent : string) (network : http.Client) : Client :=
  {| userAgent := userAgent; httpClient := network |}.

Definition World : Type := string.
Definition WorldRegular : World := "osrs".
Definition WorldFreshStart : World := "fsw".

Definition TimeInterval : Type := string.
Definition FiveMinutes : TimeInterval := "5m".
Definition OneHour : TimeInterval := "1h".
Definition SixHours : TimeInterval := "6h".
Definition TwentyFourHours : TimeInterval := "24h".

Record LatestPrice := {
  High : Z;
  HighTime : Z;
  Low : Z;
  LowTime : Z
}.

Record ItemMapping := {
  ID : Z;
  Icon : string;
  Name : string;
  Examine : string;
  Members : bool;
  Value : Z;
  HighAlch : Z;
  LowAlch : Z;
  Limit : Z
}.

Record PriceData := {
  AvgHighPrice : Z;
  HighPriceVolume : Z;
  AvgLowPrice : Z;
  LowPriceVolume : Z
}.

Record TimeseriesData := {
  Timestamp : Z;
  TsAvgHighPrice : Z;
  TsAvgLowPrice : Z;
  TsHighPriceVolume : Z;
  TsLowPriceVolume : Z
}.

(** The anonymous [struct { Data T `json:"data"` }] of the three wrapped
    responses. *)
Record response (T : Type) := { Data : T }.
Arguments Data {T} _.

Inductive error :=
| errInterval                              (* "only 5m and 1h intervals are supported" *)
| errCreatingRequest (cause : url.Error)   (* "creating request: %w" *)
| errSendingRequest (cause : string)       (* "sending request: %w" *)
| errStatusCode (code : Z)                 (* "unexpected status code: %d" *)
| errReadingBody (cause : string)          (* "reading response body: %w" *)
| errUnmarshal (cause : json.Error)        (* "error unmarshaling response: %w" *)
| errParsingItemID (cause : strconv.NumError). (* "error parsing item ID: %w" *)


(** [c.httpClient.Do(req)]: the request goes to the transport and is
    recorded. *)
Definition Do (transport : http.Client) (req : http.Request)
  : IO http.RoundTrip :=
  fun log => (transport req, (log ++ [req])%list).

Definition zeroLatestPrice : LatestPrice :=
  {| High := 0; HighTime := 0; Low := 0; LowTime := 0 |}.

Definition zeroItemMapping : ItemMapping :=
  {| ID := 0; Icon := ""; Name := ""; Examine := ""; Members := false;
     Value := 0; HighAlch := 0; LowAlch := 0; Limit := 0 |}.

Definition zeroPriceData : PriceData :=
  {| AvgHighPrice := 0; HighPriceVolume := 0; AvgLowPrice := 0;
     LowPriceVolume := 0 |}.

Definition zeroTimeseriesData : TimeseriesData :=
  {| Timestamp := 0; TsAvgHighPrice := 0; TsAvgLowPrice := 0;
     TsHighPriceVolume := 0; TsLowPriceVolume := 0 |}.

(** The [json:"..."] tags of the four record types.  [field] builds the
    entry of one field from its decoder, getter and setter. *)
Definition field {S A} (tag : string) (dec : json.Decoder A) (get : S -> A)
  (set : A -> S -> S) : json.Field S :=
  {| json.name := tag;
     json.store := fun v s => let '(a, e) := dec v (get s) in (set a s, e) |}.

Definition LatestPrice_fields : list (json.Field LatestPrice) :=
  [ field "high" json.Int High
      (fun a s => {| High := a; HighTime := HighTime s; Low := Low s;
                     LowTime := LowTime s |});
    field "highTime" json.Int HighTime
      (fun a s => {| High := High s; HighTime := a; Low := Low s;
                     LowTime := LowTime s |});
    field "low" json.Int Low
      (fun a s => {| High := High s; HighTime := HighTime s; Low := a;
                     LowTime := LowTime s |});
    field "lowTime" json.Int LowTime
      (fun a s => {| High := High s; HighTime := HighTime s; Low := Low s;
                     LowTime := a |}) ].

Definition ItemMapping_fields : list (json.Field ItemMapping) :=
  [ field "id" json.Int ID
      (fun a s => {| ID := a; Icon := Icon s; Name := Name s;
                     Examine := Examine s; Members := Members s;
                     Value := Value s; HighAlch := HighAlch s;
                     LowAlch := LowAlch s; Limit := Limit s |});
    field "icon" json.String_ Icon
      (fun a s => {| ID := ID s; Icon := a; Name := Name s;
                     Examine := Examine s; Members := Members s;
                     Value := Value s; HighAlch := HighAlch s;
                     LowAlch := LowAlch s; Limit := Limit s |});
    field "name" json.String_ Name
      (fun a s => {| ID := ID s; Icon := Icon s; Name := a;
                     Examine := Examine s; Members := Members s;
                     Value := Value s; HighAlch := HighAlch s;
                     LowAlch := LowAlch s; Limit := Limit s |});
    field "examine" json.String_ Examine
      (fun a s => {| ID := ID s; Icon := Icon s; Name := Name s;
                     Examine := a; Members := Members s;
                     Value := Value s; HighAlch := HighAlch s;
                     LowAlch := LowAlch s; Limit := Limit s |});
    field "members" json.Bool_ Members
      (fun a s => {| ID := ID s; Icon := Icon s; Name := Name s;
                     Examine := Examine s; Members := a;
                     Value := Value s; HighAlch := HighAlch s;
                     LowAlch := LowAlch s; Limit := Limit s |});
    field "value" json.Int Value
      (fun a s => {| ID := ID s; Icon := Icon s; Name := Name s;
                     Examine := Examine s; Members := Members s;
                     Value := a; HighAlch := HighAlch s;
                     LowAlch := LowAlch s; Limit := Limit s |});
    field "highalch" json.Int HighAlch
      (fun a s => {| ID := ID s; Icon := Icon s; Name := Name s;
                     Examine := Examine s; Members := Members s;
                     Value := Value s; HighAlch := a;
                     LowAlch := LowAlch s; Limit := Limit s |});
    field "lowalch" json.Int LowAlch
      (fun a s => {| ID := ID s; Icon := Icon s; Name := Name s;
                     Examine := Examine s; Members := Members s;
                     Value := Value s; HighAlch := HighAlch s;
                     LowAlch := a; Limit := Limit s |});
    field "limit" json.Int Limit
      (fun a s => {| ID := ID s; Icon := Icon s; Name := Name s;
                     Examine := Examine s; Members := Members s;
                     Value := Value s; HighAlch := HighAlch s;
                     LowAlch := LowAlch s; Limit := a |}) ].

Definition PriceData_fields : list (json.Field PriceData) :=
  [ field "avgHighPrice" json.Int AvgHighPrice
      (fun a s => {| AvgHighPrice := a;
                     HighPriceVolume := HighPriceVolume s;
                     AvgLowPrice := AvgLowPrice s;
                     LowPriceVolume := LowPriceVolume s |});
    field "highPriceVolume" json.Int HighPriceVolume
      (fun a s => {| AvgHighPrice := AvgHighPrice s;
                     HighPriceVolume := a;
                     AvgLowPrice := AvgLowPrice s;
                     LowPriceVolume := LowPriceVolume s |});
    field "avgLowPrice" json.Int AvgLowPrice
      (fun a s => {| AvgHighPrice := AvgHighPrice s;
                     HighPriceVolume := HighPriceVolume s;
                     AvgLowPrice := a;
                     LowPriceVolume := LowPriceVolume s |});
    field "lowPriceVolume" json.Int LowPriceVolume
      (fun a s => {| AvgHighPrice := AvgHighPrice s;
                     HighPriceVolume := HighPriceVolume s;
                     AvgLowPrice := AvgLowPrice s;
                     LowPriceVolume := a |}) ].

Definition TimeseriesData_fields : list (json.Field TimeseriesData) :=
  [ field "timestamp" json.Int Timestamp
      (fun a s => {| Timestamp := a; TsAvgHighPrice := TsAvgHighPrice s;
                     TsAvgLowPrice := TsAvgLowPrice s;
                     TsHighPriceVolume := TsHighPriceVolume s;
                     TsLowPriceVolume := TsLowPriceVolume s |});
    field "avgHighPrice" json.Int TsAvgHighPrice
      (fun a s => {| Timestamp := Timestamp s; TsAvgHighPrice := a;
                     TsAvgLowPrice := TsAvgLowPrice s;
                     TsHighPriceVolume := TsHighPriceVolume s;
                     TsLowPriceVolume := TsLowPriceVolume s |});
    field "avgLowPrice" json.Int TsAvgLowPrice
      (fun a s => {| Timestamp := Timestamp s;
                     TsAvgHighPrice := TsAvgHighPrice s;
                     TsAvgLowPrice := a;
                     TsHighPriceVolume := TsHighPriceVolume s;
                     TsLowPriceVolume := TsLowPriceVolume s |});
    field "highPriceVolume" json.Int TsHighPriceVolume
      (fun a s => {| Timestamp := Timestamp s;
                     TsAvgHighPrice := TsAvgHighPrice s;
                     TsAvgLowPrice := TsAvgLowPrice s;
                     TsHighPriceVolume := a;
                     TsLowPriceVolume := TsLowPriceVolume s |});
    field "lowPriceVolume" json.Int TsLowPriceVolume
      (fun a s => {| Timestamp := Timestamp s;
                     TsAvgHighPrice := TsAvgHighPrice s;
                     TsAvgLowPrice := TsAvgLowPrice s;
                     TsHighPriceVolume := TsHighPriceVolume s;
                     TsLowPriceVolume := a |}) ].

(** The decoder of [struct { Data T `json:"data"` }], given the one of
    [T]. *)
Definition response_fields {T} (dec : json.Decoder T)
  : list (json.Field (response T)) :=
  [ field "data" dec Data (fun a _ => {| Data := a |}) ].

Module Client.

(** [doRequest]: one GET of [url] with the parameters of [query]; the
    body read in full, or nil and an error. *)
Definition doRequest (c : Client) (url : string) (query : gmap string string)
  : IO (option json.Text * option error) :=
  match http.NewRequestWithContext http.MethodGet url with
  | inr err => mret (None, Some (errCreatingRequest err))
  | inl req =>
      let req := {| http.Method := http.Method req; http.URL := http.URL req;
                    http.UserAgent := userAgent c;
                    http.Query := http.Query req |} in
      let req := {| http.Method := http.Method req; http.URL := http.URL req;
                    http.UserAgent := http.UserAgent req;
                    http.Query := query ∪ http.Query req |} in
      resp ← Do (httpClient c) req;
      match resp with
      | http.Failed err => mret (None, Some (errSendingRequest err))
      | http.Responded resp =>
          if negb (http.StatusCode resp =? http.StatusOK) then
            mret (None, Some (errStatusCode (http.StatusCode resp)))
          else
            match http.body resp with
            | http.Broken err => mret (None, Some (errReadingBody err))
            | http.Bytes body => mret (Some body, None)
            end
      end
  end.

Definition LatestPrices (order : MapOrder) (c : Client) (world : World)
  (itemIDs : list Z)
  : IO (option (gmap Z LatestPrice) * option error) :=
  let url := pricesEndpoint ++ "/" ++ world ++ "/latest" in
  let query : gmap string string := ∅ in
  let query :=
    if (0 <? Z.of_nat (length itemIDs)) then
      let ids := map (fun id => strconv.FormatInt (int64 id)) itemIDs in
      <["id" := String.concat "," ids]> query
    else query in
  '(body, err) ← doRequest c url query;
  match err with
  | Some err => mret (None, Some err)
  | None =>
      let '(response, err) :=
        json.Unmarshal
          (json.Struct
             (response_fields
                (json.Map zeroLatestPrice (json.Struct LatestPrice_fields))))
          body {| Data := None |} in
      match err with
      | Some err => mret (None, Some (errUnmarshal err))
      | None =>
          let result : gmap Z LatestPrice := ∅ in
          match
            forRange
              (fun itemIDStr data result =>
                 let '(itemID, err) := strconv.ParseInt itemIDStr 10 16 in
                 match err with
                 | Some err => inr (None, Some (errParsingItemID err))
                 | None => inl (<[int16 itemID := data]> result)
                 end)
              (mapiter order _ (default ∅ (Data response))) result
          with
          | inr early => mret early
          | inl result => mret (Some result, None)
          end
      end
  end.

Definition ItemMapping (c : Client) (world : World)
  : IO (option (list ItemMapping) * option error) :=
  let url := pricesEndpoint ++ "/" ++ world ++ "/" ++ "mapping" in
  '(body, err) ← doRequest c url ∅;
  match err with
  | Some err => mret (None, Some err)
  | None =>
      let items : option (list ItemMapping) := None in
      let '(items, err) :=
        json.Unmarshal
          (json.Slice zeroItemMapping (json.Struct ItemMapping_fields))
          body items in
      match err with
      | Some err => mret (None, Some (errUnmarshal err))
      | None => mret (items, None)
      end
  end.

Definition PriceData (order : MapOrder) (c : Client) (world : World)
  (interval : TimeInterval) (timestamp : option time.Time)
  : IO (option (gmap Z PriceData) * option error) :=
  if negb (String.eqb interval FiveMinutes)
     && negb (String.eqb interval OneHour) then
    mret (None, Some errInterval)
  else
    let url := pricesEndpoint ++ "/" ++ world ++ "/" ++ interval in
    let query : gmap string string := ∅ in
    let query :=
      match timestamp with
      | Some timestamp =>
          <["timestamp" := strconv.FormatInt (time.Unix timestamp)]> query
      | None => query
      end in
    '(body, err) ← doRequest c url query;
    match err with
    | Some err => mret (None, Some err)
    | None =>
        let '(response, err) :=
          json.Unmarshal
            (json.Struct
               (response_fields
                  (json.Map zeroPriceData (json.Struct PriceData_fields))))
            body {| Data := None |} in
        match err with
        | Some err => mret (None, Some (errUnmarshal err))
        | None =>
            let result : gmap Z PriceData := ∅ in
            match
              forRange
                (fun itemIDStr data result =>
                   let '(itemID, err) := strconv.ParseInt itemIDStr 10 16 in
                   match err with
                   | Some err => inr (None, Some (errParsingItemID err))
                   | None => inl (<[int16 itemID := data]> result)
                   end)
                (mapiter order _ (default ∅ (Data response))) result
            with
            | inr early => mret early
            | inl result => mret (Some result, None)
            end
        end
    end.

Definition Timeseries (c : Client) (world : World) (timestep : TimeInterval)
  (itemID : Z) : IO (option (list TimeseriesData) * option error) :=
  let url := pricesEndpoint ++ "/" ++ world ++ "/timeseries" in
  let query : gmap string string :=
    <["timestep" := timestep]> (<["id" := strconv.FormatInt itemID]> ∅) in
  '(body, err) ← doRequest c url query;
  match err with
  | Some err => mret (None, Some err)
  | None =>
      let '(response, err) :=
        json.Unmarshal
          (json.Struct
             (response_fields
                (json.Slice zeroTimeseriesData
                   (json.Struct TimeseriesData_fields))))
          body {| Data := None |} in
      match err with
      | Some err => mret (None, Some (errUnmarshal err))
      | None => mret (Data response, None)
      end
  end.

End Client.

(** ** Sample transports and documents: a transport that answers every request alike, and the
    runtime that ranges over a map in [map_to_list] order. *)

Definition answering (code : Z) (b : http.Body) : http.Client :=
  fun _ => http.Responded {| http.StatusCode := code; http.body := b |}.

Definition listOrder : MapOrder :=
  {| mapiter := fun V m => map_to_list m;
     mapiter_perm := fun V m => reflexivity (map_to_list m) |}.

(** The runtime that ranges the other way round. *)
Definition reverseOrder : MapOrder :=
  {| mapiter := fun V m => rev (map_to_list m);
     mapiter_perm := fun V m =>
       Permutation_sym (Permutation_rev (map_to_list m)) |}.

Definition price (high highTime low lowTime : string) : json.Value :=
  json.Object [("high", json.Number high); ("highTime", json.Number highTime);
               ("low", json.Number low); ("lowTime", json.Number lowTime)].


Definition item (id icon name examine : string) (members : bool)
  (value highalch lowalch limit : string) : json.Value :=
  json.Object [("examine", json.Str examine); ("id", json.Number id);
               ("members", json.Bool members); ("lowalch", json.Number lowalch);
               ("limit", json.Number limit); ("value", json.Number value);
               ("highalch", json.Number highalch); ("icon", json.Str icon);
               ("name", json.Str name)].

(** A mapping body: a bare array of two records. *)
Definition two_items : json.Value :=
  json.Array
    [item "4151" "Abyssal whip.png" "Abyssal whip" "A weapon from the abyss."
       true "120001" "72000" "48000" "70";
     item "2" "Cannonball.png" "Cannonball" "Ammo for the Dwarf Cannon."
       true "5" "3" "2" "11000"].

(** ** Vocabulary of the statements *)

(** The request [doRequest] makes from a target and a query. *)
Definition request (c : Client) (url : string) (query : gmap string string)
  : http.Request :=
  {| http.Method := http.MethodGet; http.URL := url;
     http.UserAgent := userAgent c; http.Query := query |}.

(** From [log], the operation [op] sent one request, the transport answered
    it with [resp], and [op] returned [r]. *)
Definition answered {A} (c : Client) (op : IO A) (log : list http.Request)
  (resp : http.Response) (r : A) : Prop :=
  exists req, op log = (r, (log ++ [req])%list)
              /\ httpClient c req = http.Responded resp.

(** A member name that selects the field tagged [data]. *)
Definition names_data (key : string) : bool :=
  String.eqb (json.foldName key) "DATA".

(** A 200 response carrying the JSON document [doc]. *)
Definition ok (doc : json.Value) : http.Response :=
  {| http.StatusCode := http.StatusOK;
     http.body := http.Bytes (json.Document doc) |}.

Definition is_int16 (z : Z) : Prop := - 2 ^ 15 <= z < 2 ^ 15.

(** The decode class of errors: the body is not the JSON the operation
    expects, or an item identifier in it does not parse. *)
Definition decodeError (e : error) : Prop :=
  (exists cause, e = errUnmarshal cause)
  \/ (exists cause, e = errParsingItemID cause).

(** What each operation returns once [doRequest] has handed it the body [b]
    (the part of the function after the request), read off a run against a
    transport that answers 200 with [b]. *)
Definition LatestPrices_on (order : MapOrder) (b : json.Text)
  : option (gmap Z LatestPrice) * option error :=
  (Client.LatestPrices order (NewClient "" (answering 200 (http.Bytes b)))
     WorldRegular [] []).1.

Definition ItemMapping_on (b : json.Text)
  : option (list ItemMapping) * option error :=
  (Client.ItemMapping (NewClient "" (answering 200 (http.Bytes b)))
     WorldRegular []).1.

Definition PriceData_on (order : MapOrder) (b : json.Text)
  : option (gmap Z PriceData) * option error :=
  (Client.PriceData order (NewClient "" (answering 200 (http.Bytes b)))
     WorldRegular FiveMinutes None []).1.

Definition Timeseries_on (b : json.Text)
  : option (list TimeseriesData) * option error :=
  (Client.Timeseries (NewClient "" (answering 200 (http.Bytes b)))
     WorldRegular FiveMinutes 0 []).1.

(** The outcome of an operation that called [doRequest] with [url] and
    [query] from [log]: an unparsable target ends it before anything is
    sent; otherwise the request goes out and the transport's answer decides,
    [on] being the operation's own treatment of a body. *)
Definition outcome {A} (c : Client) (url : string) (query : gmap string string)
  (on : json.Text -> option A * option error) (log : list http.Request)
  : (option A * option error) * list http.Request :=
  match url.Parse url with
  | Some e => ((None, Some (errCreatingRequest e)), log)
  | None =>
      (match httpClient c (request c url query) with
       | http.Failed e => (None, Some (errSendingRequest e))
       | http.Responded resp =>
           if http.StatusCode resp =? http.StatusOK then
             match http.body resp with
             | http.Broken e => (None, Some (errReadingBody e))
             | http.Bytes b => on b
             end
           else (None, Some (errStatusCode (http.StatusCode resp)))
       end, (log ++ [request c url query])%list)
  end.

(** A 503 whose body would be a fine success payload. *)
Definition unavailable : http.Response :=
  {| http.StatusCode := 503;
     http.body :=
       http.Bytes
         (json.Document
            (json.Object
               [("data",
                 json.Object
                   [("4151", price "1000" "1700000000" "950" "1700000100")])])) |}.

(** A response whose data object has the key 99999999 next to a good one. *)
Definition oversized : http.Response :=
  ok (json.Object
        [("data",
          json.Object
            [("4151", price "1000" "1700000000" "950" "1700000100");
             ("99999999", price "1" "2" "3" "4")])]).

(** ** Vocabulary of the further properties *)

(** The number that the digits of [d] spell when the digits before them
    spelled [acc]. *)
Fixpoint uint_value (d : Decimal.uint) (acc : Z) : Z :=
  match d with
  | Decimal.Nil => acc
  | Decimal.D0 d => uint_value d (acc * 10)
  | Decimal.D1 d => uint_value d (acc * 10 + 1)
  | Decimal.D2 d => uint_value d (acc * 10 + 2)
  | Decimal.D3 d => uint_value d (acc * 10 + 3)
  | Decimal.D4 d => uint_value d (acc * 10 + 4)
  | Decimal.D5 d => uint_value d (acc * 10 + 5)
  | Decimal.D6 d => uint_value d (acc * 10 + 6)
  | Decimal.D7 d => uint_value d (acc * 10 + 7)
  | Decimal.D8 d => uint_value d (acc * 10 + 8)
  | Decimal.D9 d => uint_value d (acc * 10 + 9)
  end.

(** An error raised before anything is sent: the interval check of
    PriceData or the construction of the request. *)
Definition localError (e : error) : Prop :=
  e = errInterval \/ exists cause, e = errCreatingRequest cause.

(** From [log], a call left [log'] behind: nothing new, or one more request,
    a GET with the User-Agent [ua]. *)
Definition one_get_at_most (ua : string) (log log' : list http.Request)
  : Prop :=
  log' = log
  \/ exists req, log' = (log ++ [req])%list
                 /\ http.Method req = "GET" /\ http.UserAgent req = ua.


(** The members of the data object that spells [entries]: each value,
    encoded by [enc], under the decimal rendering of its identifier. *)
Definition data_of {V} (enc : V -> json.Value) (entries : list (Z * V))
  : list (string * json.Value) :=
  map (fun e => (strconv.FormatInt e.1, enc e.2)) entries.

(** The JSON object that spells a record, member by member. *)
Definition LatestPrice_json (p : LatestPrice) : json.Value :=
  price (strconv.FormatInt (High p)) (strconv.FormatInt (HighTime p))
    (strconv.FormatInt (Low p)) (strconv.FormatInt (LowTime p)).

Definition PriceData_json (p : PriceData) : json.Value :=
  json.Object
    [("avgHighPrice", json.Number (strconv.FormatInt (AvgHighPrice p)));
     ("highPriceVolume", json.Number (strconv.FormatInt (HighPriceVolume p)));
     ("avgLowPrice", json.Number (strconv.FormatInt (AvgLowPrice p)));
     ("lowPriceVolume", json.Number (strconv.FormatInt (LowPriceVolume p)))].

Definition TimeseriesData_json (p : TimeseriesData) : json.Value :=
  json.Object
    [("timestamp", json.Number (strconv.FormatInt (Timestamp p)));
     ("avgHighPrice", json.Number (strconv.FormatInt (TsAvgHighPrice p)));
     ("avgLowPrice", json.Number (strconv.FormatInt (TsAvgLowPrice p)));
     ("highPriceVolume", json.Number (strconv.FormatInt (TsHighPriceVolume p)));
     ("lowPriceVolume", json.Number (strconv.FormatInt (TsLowPriceVolume p)))].

Definition ItemMapping_json (p : ItemMapping) : json.Value :=
  item (strconv.FormatInt (ID p)) (Icon p) (Name p) (Examine p) (Members p)
    (strconv.FormatInt (Value p)) (strconv.FormatInt (HighAlch p))
    (strconv.FormatInt (LowAlch p)) (strconv.FormatInt (Limit p)).

Definition is_int64 (z : Z) : Prop := - 2 ^ 63 <= z < 2 ^ 63.

(** Records whose integer fields are int64 values, as Go's are. *)
Definition LatestPrice_ok (p : LatestPrice) : Prop :=
  is_int64 (High p) /\ is_int64 (HighTime p) /\ is_int64 (Low p)
  /\ is_int64 (LowTime p).

Definition PriceData_ok (p : PriceData) : Prop :=
  is_int64 (AvgHighPrice p) /\ is_int64 (HighPriceVolume p)
  /\ is_int64 (AvgLowPrice p) /\ is_int64 (LowPriceVolume p).

Definition TimeseriesData_ok (p : TimeseriesData) : Prop :=
  is_int64 (Timestamp p) /\ is_int64 (TsAvgHighPrice p)
  /\ is_int64 (TsAvgLowPrice p) /\ is_int64 (TsHighPriceVolume p)
  /\ is_int64 (TsLowPriceVolume p).

Definition ItemMapping_ok (p : ItemMapping) : Prop :=
  is_int64 (ID p) /\ is_int64 (Value p) /\ is_int64 (HighAlch p)
  /\ is_int64 (LowAlch p) /\ is_int64 (Limit p).

(** Two results of a mapping operation that differ at most by what the
    order of [range] can change: which of several unparsable keys is
    reported, and which record wins when two keys parse to one identifier. *)
Definition same_up_to_order {V} (r1 r2 : option (gmap Z V) * option error)
  : Prop :=
  match r1, r2 with
  | (Some m1, None), (Some m2, None) => dom m1 = dom m2
  | (None, Some e1), (None, Some e2) =>
      e1 = e2
      \/ exists c1 c2, e1 = errParsingItemID c1 /\ e2 = errParsingItemID c2
  | _, _ => False
  end.

(** A response whose data object has two keys for the identifier 1. *)
Definition twins : http.Response :=
  ok (json.Object
        [("data",
          json.Object [("1", price "10" "11" "12" "13");
                       ("01", price "20" "21" "22" "23")])]).

(** ** strconv: what a successful parse guarantees *)

Lemma ParseUint_loop_bound base cutoff maxVal s : forall n0 n,
  0 <= n0 <= maxVal ->
  strconv.ParseUint_loop base cutoff maxVal s n0 = (n, None) ->
  0 <= n <= maxVal.
Proof.
  induction s as [|c s IH]; intros n0 n Hn0 H; simpl in H.
  - inversion H; subst; exact Hn0.
  - destruct (strconv.digit c) as [d|]; [|done].
    destruct (base <=? d); [done|].
    destruct (cutoff <=? n0); [done|].
    destruct (_ || _) eqn:Hov; [done|].
    apply orb_false_iff in Hov as [_ Hmax].
    apply (IH _ _) in H; [done|].
    split; [apply Z.mod_pos_bound; lia | lia].
Qed.

Lemma ParseUint_bound s bitSize n :
  0 < bitSize ->
  strconv.ParseUint s 10 bitSize = (n, None) ->
  0 <= n < 2 ^ bitSize.
Proof.
  intros Hb H. unfold strconv.ParseUint in H.
  destruct s as [|c s]; [done|].
  replace (bitSize =? 0) with false in H by (symmetry; apply Z.eqb_neq; lia).
  destruct (strconv.ParseUint_loop _ _ _ _ _) as [u [[]|]] eqn:Hloop; try done.
  inversion H; subst u.
  apply ParseUint_loop_bound in Hloop; [lia|].
  assert (0 < 2 ^ bitSize) by (apply Z.pow_pos_nonneg; lia). lia.
Qed.

Lemma ParseUint_range_value s bitSize n e :
  0 < bitSize ->
  strconv.ParseUint s 10 bitSize = (n, Some e) ->
  strconv.Err e = strconv.ErrRange ->
  n = 2 ^ bitSize - 1.
Proof.
  intros Hb H He. unfold strconv.ParseUint in H.
  destruct s as [|c s]; [by inversion H; subst|].
  replace (bitSize =? 0) with false in H by (symmetry; apply Z.eqb_neq; lia).
  destruct (strconv.ParseUint_loop _ _ _ _ _) as [u [[]|]] eqn:Hloop;
    inversion H; subst; try done.
  clear H He. revert Hloop. generalize 0 at 1.
  induction (String c s) as [|c' s' IH]; intros n0; simpl; [done|].
  destruct (strconv.digit c'); [|done].
  repeat (case_match; try done); try (by inversion 1); apply IH.
Qed.

(** A key that [ParseInt(_, 10, 16)] accepts is an int16: the conversion
    [int16(itemID)] changes nothing. *)
Lemma ParseInt_16 s n :
  strconv.ParseInt s 10 16 = (n, None) -> is_int16 n /\ int16 n = n.
Proof.
  intros H.
  assert (is_int16 n) as Hr; [|split; [done|]].
  2: { unfold is_int16 in Hr. unfold int16.
       change (2 ^ 15) with 32768 in *. change (2 ^ 16) with 65536.
       rewrite Z.mod_small; lia. }
  unfold strconv.ParseInt in H. destruct s as [|c s]; [done|].
  set (p := if Ascii.eqb c "+" then _ else _) in H.
  destruct p as [neg s1].
  destruct (strconv.ParseUint s1 10 16) as [un err] eqn:Hu.
  assert (0 <= un < 2 ^ 16) as Hun.
  { destruct err as [e|].
    - destruct e as [f nm []]; [done|].
      apply ParseUint_range_value in Hu; [|done..]. subst un. done.
    - by apply ParseUint_bound in Hu. }
  assert (H' : (if negb neg && (2 ^ (16 - 1) <=? un)
                then (2 ^ (16 - 1) - 1, Some (strconv.rangeError "ParseInt" (String c s)))
                else if neg && (2 ^ (16 - 1) <? un)
                     then (- 2 ^ (16 - 1), Some (strconv.rangeError "ParseInt" (String c s)))
                     else (if neg then int64 (- int64 un) else int64 un, None))
               = (n, None)).
  { destruct err as [[f nm []]|]; done. }
  clear H. change (2 ^ (16 - 1)) with 32768 in H'. change (2 ^ 16) with 65536 in Hun.
  unfold is_int16. change (2 ^ 15) with 32768.
  assert (int64 un = un) as Hi.
  { unfold int64. change (2 ^ 63) with 9223372036854775808.
    change (2 ^ 64) with 18446744073709551616. rewrite Z.mod_small; lia. }
  destruct neg; simpl in H'.
  - destruct (32768 <? un) eqn:Hc; [done|]. apply Z.ltb_ge in Hc.
    inversion H' as [Hn]. rewrite Hi. unfold int64.
    change (2 ^ 63) with 9223372036854775808.
    change (2 ^ 64) with 18446744073709551616. rewrite Z.mod_small; lia.
  - destruct (32768 <=? un) eqn:Hc; [done|]. apply Z.leb_gt in Hc.
    inversion H' as [Hn]. lia.
Qed.

(** ** The shared request step *)

Lemma doRequest_eq c url query log :
  Client.doRequest c url query log =
    match url.Parse url with
    | Some e => ((None, Some (errCreatingRequest e)), log)
    | None =>
        (match httpClient c (request c url query) with
         | http.Failed e => (None, Some (errSendingRequest e))
         | http.Responded resp =>
             if http.StatusCode resp =? http.StatusOK then
               match http.body resp with
               | http.Broken e => (None, Some (errReadingBody e))
               | http.Bytes b => (Some b, None)
               end
             else (None, Some (errStatusCode (http.StatusCode resp)))
         end, (log ++ [request c url query])%list)
    end.
Proof.
  unfold Client.doRequest, http.NewRequestWithContext.
  destruct (url.Parse url); [reflexivity|]. cbn [http.Method http.URL http.UserAgent http.Query].
  rewrite (right_id_L ∅ (∪)). fold (request c url query).
  unfold mbind, IO_bind, Do.
  destruct (httpClient c (request c url query)) as [e|resp]; [reflexivity|].
  destruct (http.StatusCode resp =? http.StatusOK); cbn [negb]; [|reflexivity].
  by destruct (http.body resp).
Qed.

(** ** The key loop of LatestPrices and PriceData *)

Section KeyLoop.

Context {V : Type}.
Variable body :
  string -> V -> gmap Z V -> gmap Z V + (option (gmap Z V) * option error).
Hypothesis body_eq : forall key v s,
  body key v s =
    let '(itemID, err) := strconv.ParseInt key 10 16 in
    match err with
    | Some err => inr (None, Some (errParsingItemID err))
    | None => inl (<[int16 itemID := v]> s)
    end.

Lemma forRange_early entries : forall s r,
  forRange body entries s = inr r ->
  exists cause, r = (None, Some (errParsingItemID cause)).
Proof.
  induction entries as [|[key v] rest IH]; intros s r H; simpl in H; [done|].
  rewrite body_eq in H.
  destruct (strconv.ParseInt key 10 16) as [n [e|]].
  - inversion H. by exists e.
  - by apply IH in H.
Qed.

Lemma forRange_bad entries key v : forall s,
  (key, v) ∈ entries ->
  (strconv.ParseInt key 10 16).2 <> None ->
  exists cause, forRange body entries s = inr (None, Some (errParsingItemID cause)).
Proof.
  induction entries as [|[key' v'] rest IH]; intros s Hin Hbad.
  - by apply elem_of_nil in Hin.
  - simpl. rewrite body_eq.
    destruct (strconv.ParseInt key' 10 16) as [n [e|]] eqn:Hp; [by exists e|].
    apply elem_of_cons in Hin as [Heq|Hin]; [|by apply IH].
    inversion Heq; subst. rewrite Hp in Hbad. done.
Qed.

Lemma forRange_lookup entries : forall s m n v,
  forRange body entries s = inl m ->
  m !! n = Some v ->
  s !! n = Some v
  \/ exists key, (key, v) ∈ entries /\ strconv.ParseInt key 10 16 = (n, None).
Proof.
  induction entries as [|[key v'] rest IH]; intros s m n v H Hm; simpl in H.
  - inversion H; subst. by left.
  - rewrite body_eq in H.
    destruct (strconv.ParseInt key 10 16) as [i [e|]] eqn:Hp; [done|].
    destruct (IH _ _ _ _ H Hm) as [Hs|(key' & Hin & Hk)].
    + destruct (ParseInt_16 _ _ Hp) as [_ Hi]. rewrite Hi in Hs.
      destruct (decide (i = n)) as [->|Hne].
      * rewrite lookup_insert_eq in Hs. inversion Hs; subst.
        right. exists key. split; [apply elem_of_cons; by left | done].
      * rewrite lookup_insert_ne in Hs by done. by left.
    + right. exists key'. split; [apply elem_of_cons; by right | done].
Qed.

Lemma forRange_keeps entries : forall s m n,
  forRange body entries s = inl m -> is_Some (s !! n) -> is_Some (m !! n).
Proof.
  induction entries as [|[key v'] rest IH]; intros s m n H Hs; simpl in H.
  - by inversion H; subst.
  - rewrite body_eq in H.
    destruct (strconv.ParseInt key 10 16) as [i [e|]]; [done|].
    apply (IH _ _ _ H). rewrite lookup_insert. case_decide; [by eexists | done].
Qed.

Lemma forRange_covers entries key v : forall s m,
  forRange body entries s = inl m ->
  (key, v) ∈ entries ->
  exists n, strconv.ParseInt key 10 16 = (n, None) /\ is_Some (m !! n).
Proof.
  induction entries as [|[key' v'] rest IH]; intros s m H Hin; simpl in H.
  - by apply elem_of_nil in Hin.
  - rewrite body_eq in H.
    destruct (strconv.ParseInt key' 10 16) as [i [e|]] eqn:Hp; [done|].
    apply elem_of_cons in Hin as [Heq|Hin]; [|by apply (IH _ _ H)].
    inversion Heq; subst. exists i. split; [done|].
    apply (forRange_keeps _ _ _ _ H).
    destruct (ParseInt_16 _ _ Hp) as [_ ->]. rewrite lookup_insert_eq. by eexists.
Qed.

End KeyLoop.

(** ** Anatomy of the four operations *)

Ltac unfold_io := unfold mbind, IO_bind, mret, IO_ret.

(** Case analysis on the pieces of an operation's tail. *)
Ltac tails :=
  repeat match goal with
    | |- context [json.Unmarshal ?d ?b ?v] =>
        destruct (json.Unmarshal d b v) as [? [?|]]
    | |- context [forRange ?f ?l ?s] => destruct (forRange f l s)
    end;
  try reflexivity.

(** The canned transport behind the [_on] definitions. *)
Ltac canned :=
  match goal with
  | |- context [url.Parse ?u] =>
      match u with
      | context [WorldRegular] =>
          change (url.Parse u) with (@None url.Error)
      end
  end;
  cbn [NewClient httpClient answering http.StatusCode http.body];
  change (200 =? http.StatusOK) with true; cbn match.

(** An operation whose request step came out as [outcome] says. *)
Ltac anatomy :=
  unfold outcome; unfold_io; rewrite doRequest_eq;
  destruct (url.Parse _); [reflexivity|];
  destruct (httpClient _ _) as [?|?resp]; [reflexivity|];
  destruct (_ =? _); [|reflexivity];
  destruct (http.body _) as [?|?b]; [reflexivity|];
  rewrite doRequest_eq; canned; tails.

Lemma LatestPrices_eq order c world itemIDs log :
  Client.LatestPrices order c world itemIDs log =
    outcome c (pricesEndpoint ++ "/" ++ world ++ "/latest")
      (if 0 <? Z.of_nat (length itemIDs)
       then {[ "id" := String.concat ","
                         (map (fun id => strconv.FormatInt (int64 id)) itemIDs) ]}
       else ∅)
      (LatestPrices_on order) log.
Proof.
  unfold LatestPrices_on, Client.LatestPrices. rewrite insert_empty.
  set (q := if _ <? _ then _ else _). anatomy.
Qed.

Lemma ItemMapping_eq c world log :
  Client.ItemMapping c world log =
    outcome c (pricesEndpoint ++ "/" ++ world ++ "/mapping") ∅
      ItemMapping_on log.
Proof. unfold ItemMapping_on, Client.ItemMapping. anatomy. Qed.

Lemma PriceData_eq order c world interval timestamp log :
  Client.PriceData order c world interval timestamp log =
    if negb (String.eqb interval FiveMinutes)
       && negb (String.eqb interval OneHour)
    then ((None, Some errInterval), log)
    else
      outcome c (pricesEndpoint ++ "/" ++ world ++ "/" ++ interval)
        match timestamp with
        | Some t => {[ "timestamp" := strconv.FormatInt (time.Unix t) ]}
        | None => ∅
        end
        (PriceData_on order) log.
Proof.
  unfold PriceData_on, Client.PriceData.
  change (negb (String.eqb FiveMinutes FiveMinutes)
          && negb (String.eqb FiveMinutes OneHour)) with false.
  cbv iota. destruct (_ && _); [reflexivity|].
  destruct timestamp as [t|]; rewrite ?insert_empty;
    [set (q := {[ "timestamp" := _ ]})|]; anatomy.
Qed.

Lemma Timeseries_eq c world timestep itemID log :
  Client.Timeseries c world timestep itemID log =
    outcome c (pricesEndpoint ++ "/" ++ world ++ "/timeseries")
      (<["timestep" := timestep]> {[ "id" := strconv.FormatInt itemID ]})
      Timeseries_on log.
Proof.
  unfold Timeseries_on, Client.Timeseries. rewrite insert_empty.
  set (q := <["timestep" := timestep]> _). anatomy.
Qed.

(** The treatment of a body, spelled out. *)

Lemma LatestPrices_on_eq order b :
  LatestPrices_on order b =
    let '(response, err) :=
      json.Unmarshal
        (json.Struct
           (response_fields
              (json.Map zeroLatestPrice (json.Struct LatestPrice_fields))))
        (Some b) {| Data := None |} in
    match err with
    | Some err => (None, Some (errUnmarshal err))
    | None =>
        match
          forRange
            (fun itemIDStr data (result : gmap Z LatestPrice) =>
               let '(itemID, err) := strconv.ParseInt itemIDStr 10 16 in
               match err with
               | Some err => inr (None, Some (errParsingItemID err))
               | None => inl (<[int16 itemID := data]> result)
               end)
            (mapiter order _ (default ∅ (Data response))) ∅
        with
        | inr early => early
        | inl result => (Some result, None)
        end
    end.
Proof.
  unfold LatestPrices_on, Client.LatestPrices. unfold_io.
  rewrite doRequest_eq. canned. tails.
Qed.

Lemma PriceData_on_eq order b :
  PriceData_on order b =
    let '(response, err) :=
      json.Unmarshal
        (json.Struct
           (response_fields
              (json.Map zeroPriceData (json.Struct PriceData_fields))))
        (Some b) {| Data := None |} in
    match err with
    | Some err => (None, Some (errUnmarshal err))
    | None =>
        match
          forRange
            (fun itemIDStr data (result : gmap Z PriceData) =>
               let '(itemID, err) := strconv.ParseInt itemIDStr 10 16 in
               match err with
               | Some err => inr (None, Some (errParsingItemID err))
               | None => inl (<[int16 itemID := data]> result)
               end)
            (mapiter order _ (default ∅ (Data response))) ∅
        with
        | inr early => early
        | inl result => (Some result, None)
        end
    end.
Proof.
  unfold PriceData_on, Client.PriceData.
  change (negb (String.eqb FiveMinutes FiveMinutes)
          && negb (String.eqb FiveMinutes OneHour)) with false.
  cbv iota. unfold_io. rewrite doRequest_eq. canned. tails.
Qed.

Lemma ItemMapping_on_eq b :
  ItemMapping_on b =
    let '(items, err) :=
      json.Unmarshal
        (json.Slice zeroItemMapping (json.Struct ItemMapping_fields))
        (Some b) None in
    match err with
    | Some err => (None, Some (errUnmarshal err))
    | None => (items, None)
    end.
Proof.
  unfold ItemMapping_on, Client.ItemMapping. unfold_io.
  rewrite doRequest_eq. canned. tails.
Qed.

Lemma Timeseries_on_eq b :
  Timeseries_on b =
    let '(response, err) :=
      json.Unmarshal
        (json.Struct
           (response_fields
              (json.Slice zeroTimeseriesData
                 (json.Struct TimeseriesData_fields))))
        (Some b) {| Data := None |} in
    match err with
    | Some err => (None, Some (errUnmarshal err))
    | None => (Data response, None)
    end.
Proof.
  unfold Timeseries_on, Client.Timeseries. unfold_io.
  rewrite doRequest_eq. canned. tails.
Qed.

(** An operation that was answered returns what [outcome] reads off the
    response. *)
Lemma answered_outcome {A} c url query (on : json.Text -> option A * option error)
  log resp r :
  answered c (outcome c url query on) log resp r ->
  r = if http.StatusCode resp =? http.StatusOK then
        match http.body resp with
        | http.Broken e => (None, Some (errReadingBody e))
        | http.Bytes b => on b
        end
      else (None, Some (errStatusCode (http.StatusCode resp))).
Proof.
  intros (req & Hrun & Hresp). unfold outcome in Hrun.
  destruct (url.Parse url).
  - inversion Hrun as [[Hr Hlog]].
    apply (f_equal length) in Hlog. rewrite length_app in Hlog. simpl in Hlog. lia.
  - inversion Hrun as [[Hr Hlog]]. apply app_inv_head in Hlog.
    inversion Hlog; subst req. by rewrite Hresp.
Qed.

(** ** Errors of the decoding part: never with data, never the interval
    error *)

Lemma LatestPrices_on_error order b r e :
  LatestPrices_on order b = (r, Some e) -> r = None /\ decodeError e.
Proof.
  rewrite LatestPrices_on_eq.
  destruct (json.Unmarshal _ _ _) as [resp [je|]].
  - intros [= <- <-]. split; [done|]. left. by eexists.
  - destruct (forRange _ _ _) as [m|early] eqn:Hloop; [done|].
    apply forRange_early in Hloop as [cause ->]; [|done].
    intros [= <- <-]. split; [done|]. right. by eexists.
Qed.

Lemma PriceData_on_error order b r e :
  PriceData_on order b = (r, Some e) -> r = None /\ decodeError e.
Proof.
  rewrite PriceData_on_eq.
  destruct (json.Unmarshal _ _ _) as [resp [je|]].
  - intros [= <- <-]. split; [done|]. left. by eexists.
  - destruct (forRange _ _ _) as [m|early] eqn:Hloop; [done|].
    apply forRange_early in Hloop as [cause ->]; [|done].
    intros [= <- <-]. split; [done|]. right. by eexists.
Qed.

Lemma ItemMapping_on_error b r e :
  ItemMapping_on b = (r, Some e) -> r = None /\ decodeError e.
Proof.
  rewrite ItemMapping_on_eq.
  destruct (json.Unmarshal _ _ _) as [items [je|]]; [|done].
  intros [= <- <-]. split; [done|]. left. by eexists.
Qed.

Lemma Timeseries_on_error b r e :
  Timeseries_on b = (r, Some e) -> r = None /\ decodeError e.
Proof.
  rewrite Timeseries_on_eq.
  destruct (json.Unmarshal _ _ _) as [resp [je|]]; [|done].
  intros [= <- <-]. split; [done|]. left. by eexists.
Qed.

Lemma outcome_error {A} c url query (on : json.Text -> option A * option error)
  log r e :
  (forall b r' e', on b = (r', Some e') -> r' = None /\ decodeError e') ->
  (outcome c url query on log).1 = (r, Some e) ->
  r = None /\ e <> errInterval.
Proof.
  intros Hon. unfold outcome.
  destruct (url.Parse url); [by intros [= <- <-]|]. cbn [fst].
  destruct (httpClient c _) as [?|resp]; [by intros [= <- <-]|].
  destruct (_ =? _); [|by intros [= <- <-]].
  destruct (http.body resp) as [?|b]; [by intros [= <- <-]|].
  intros H. apply Hon in H as [-> [[? ->]|[? ->]]]; done.
Qed.


Lemma log_grows (log : list http.Request) req : log <> (log ++ [req])%list.
Proof.
  intros H. apply (f_equal length) in H. rewrite length_app in H. simpl in H. lia.
Qed.

Lemma int64_small z : - 2 ^ 63 <= z < 2 ^ 63 -> int64 z = z.
Proof. intros H. unfold int64. rewrite Z.mod_small; lia. Qed.


(** ** The claims *)

(** C2: PriceData answers every interval token other than 5m and 1h with
    the validation error, and the list of requests sent is left as it was;
    for 5m and 1h the validation error never comes back. *)
Theorem PriceData_validates_interval order c world interval timestamp log :
  (interval <> FiveMinutes -> interval <> OneHour ->
   Client.PriceData order c world interval timestamp log
     = ((None, Some errInterval), log))
  /\ (interval = FiveMinutes \/ interval = OneHour ->
      (Client.PriceData order c world interval timestamp log).1.2
        <> Some errInterval).
Proof.
  rewrite PriceData_eq. split.
  - intros H5 H1. apply String.eqb_neq in H5, H1. by rewrite H5, H1.
  - intros Hv.
    assert (negb (String.eqb interval FiveMinutes)
            && negb (String.eqb interval OneHour) = false) as ->.
    { by destruct Hv as [-> | ->]. }
    destruct (outcome _ _ _ _ _).1 as [r [e|]] eqn:Hout; [|done].
    apply outcome_error in Hout as [_ He]; [|apply PriceData_on_error].
    cbn. congruence.
Qed.

Lemma PriceData_validates_interval_witness :
  Client.PriceData listOrder (NewClient "osrswiki-cli/0.0.1"
      (answering 200 (http.Bytes (json.Document (json.Object [])))))
    WorldRegular SixHours None []
  = ((None, Some errInterval), [])
  /\ (Client.PriceData listOrder (NewClient "osrswiki-cli/0.0.1"
        (answering 200 (http.Bytes (json.Document (json.Object [])))))
      WorldRegular OneHour None []).1.2 <> Some errInterval.
Proof.
  split.
  - apply (proj1 (PriceData_validates_interval listOrder _ WorldRegular
                    SixHours None [])); discriminate.
  - apply (proj2 (PriceData_validates_interval listOrder _ WorldRegular
                    OneHour None [])). right. reflexivity.
Defined.

(** C5: an operation that is answered with a status other than 200 returns
    no data and the error that carries that status; the body plays no part
    in what is returned (it is not even read). *)
Theorem non_200_is_a_status_error order c world itemIDs interval timestamp
  timestep itemID log resp :
  http.StatusCode resp <> http.StatusOK ->
  (forall r, answered c (Client.LatestPrices order c world itemIDs) log resp r ->
             r = (None, Some (errStatusCode (http.StatusCode resp))))
  /\ (forall r, answered c (Client.ItemMapping c world) log resp r ->
                r = (None, Some (errStatusCode (http.StatusCode resp))))
  /\ (forall r, answered c (Client.PriceData order c world interval timestamp)
                  log resp r ->
                r = (None, Some (errStatusCode (http.StatusCode resp))))
  /\ (forall r, answered c (Client.Timeseries c world timestep itemID) log resp r ->
                r = (None, Some (errStatusCode (http.StatusCode resp)))).
Proof.
  intros Hcode. apply Z.eqb_neq in Hcode.
  repeat split; intros r (req & Hrun & Hresp).
  - rewrite LatestPrices_eq in Hrun.
    rewrite (answered_outcome _ _ _ _ _ _ _ (ex_intro _ req (conj Hrun Hresp))).
    by rewrite Hcode.
  - rewrite ItemMapping_eq in Hrun.
    rewrite (answered_outcome _ _ _ _ _ _ _ (ex_intro _ req (conj Hrun Hresp))).
    by rewrite Hcode.
  - rewrite PriceData_eq in Hrun. destruct (_ && _).
    + injection Hrun as _ Hlog. by apply log_grows in Hlog.
    + rewrite (answered_outcome _ _ _ _ _ _ _ (ex_intro _ req (conj Hrun Hresp))).
      by rewrite Hcode.
  - rewrite Timeseries_eq in Hrun.
    rewrite (answered_outcome _ _ _ _ _ _ _ (ex_intro _ req (conj Hrun Hresp))).
    by rewrite Hcode.
Qed.

Lemma non_200_is_a_status_error_witness :
  (Client.LatestPrices listOrder
     (NewClient "osrswiki-cli/0.0.1" (fun _ => http.Responded unavailable))
     WorldRegular [4151] []).1
  = (None, Some (errStatusCode 503)).
Proof.
  refine (proj1 (non_200_is_a_status_error listOrder
                   (NewClient "osrswiki-cli/0.0.1"
                      (fun _ => http.Responded unavailable))
                   WorldRegular [4151] FiveMinutes None FiveMinutes 4151 []
                   unavailable _) _ _).
  - discriminate.
  - eexists. split; [vm_compute; reflexivity | reflexivity].
Defined.

(** C8: whenever one of the four operations returns an error, the data it
    returns with it is nil. *)
Theorem error_comes_with_nil order c world itemIDs interval timestamp timestep
  itemID log :
  (forall e, (Client.LatestPrices order c world itemIDs log).1.2 = Some e ->
             (Client.LatestPrices order c world itemIDs log).1.1 = None)
  /\ (forall e, (Client.ItemMapping c world log).1.2 = Some e ->
                (Client.ItemMapping c world log).1.1 = None)
  /\ (forall e,
        (Client.PriceData order c world interval timestamp log).1.2 = Some e ->
        (Client.PriceData order c world interval timestamp log).1.1 = None)
  /\ (forall e, (Client.Timeseries c world timestep itemID log).1.2 = Some e ->
                (Client.Timeseries c world timestep itemID log).1.1 = None).
Proof.
  rewrite LatestPrices_eq, ItemMapping_eq, PriceData_eq, Timeseries_eq.
  repeat split; intros e; try (destruct (_ && _); [done|]).
  all: destruct (outcome _ _ _ _ _).1 as [r e'] eqn:Hout; cbn; intros ->.
  all: apply outcome_error in Hout as [-> _]; [done|].
  - apply LatestPrices_on_error.
  - apply ItemMapping_on_error.
  - apply PriceData_on_error.
  - apply Timeseries_on_error.
Qed.

Lemma error_comes_with_nil_witness :
  (Client.LatestPrices listOrder
     (NewClient "osrswiki-cli/0.0.1" (fun _ => http.Responded oversized))
     WorldRegular [] []).1.1 = None.
Proof.
  eapply (proj1 (error_comes_with_nil listOrder
                   (NewClient "osrswiki-cli/0.0.1"
                      (fun _ => http.Responded oversized))
                   WorldRegular [] FiveMinutes None FiveMinutes 0 [])).
  vm_compute. reflexivity.
Defined.










(** ** encoding/json: the wrapped responses *)

Lemma lookupField_data {T} (dec : json.Decoder T) key :
  json.lookupField (response_fields dec) key =
    if names_data key
    then Some (field "data" dec Data (fun a _ => {| Data := a |}))
    else None.
Proof.
  unfold json.lookupField, response_fields, names_data. cbn [find field json.name].
  destruct (String.eqb "data" key) eqn:Hk.
  - apply String.eqb_eq in Hk. by subst key.
  - change (json.foldName "data") with "DATA". rewrite String.eqb_sym.
    by destruct (String.eqb _ _).
Qed.

(** Storing the members of a response object one after the other keeps any
    property that storing a [data] member keeps. *)
Lemma response_members_ind {T} (dec : json.Decoder T)
  (P : response T * option json.Error -> Prop) members :
  (forall s e key v,
     P (s, e) -> names_data key = true -> (key, v) ∈ members ->
     P (let '(a, e') := dec v (Data s) in ({| Data := a |}, json.saveError e e'))) ->
  forall acc, P acc ->
  P (fold_left
       (fun '(s, err) '(key, x) =>
          match json.lookupField (response_fields dec) key with
          | Some f => let '(s', e) := json.store f x s in (s', json.saveError err e)
          | None => (s, err)
          end)
       members acc).
Proof.
  induction members as [|[key v] rest IH]; intros Hstep [s e] Hacc; [done|].
  cbn [fold_left]. apply IH.
  - intros s' e' key' v' HP Hk Hin. apply (Hstep s' e' key' v' HP Hk).
    apply elem_of_cons. by right.
  - rewrite lookupField_data. destruct (names_data key) eqn:Hk; [|done].
    specialize (Hstep s e key v Hacc Hk). cbn [field json.store].
    destruct (dec v (Data s)) as [a e']. apply Hstep. apply elem_of_cons. by left.
Qed.

(** What [json.Map] makes of an object, member by member. *)
Lemma Map_members {T} (zero : T) (elem : json.Decoder T)
  (kvs : list (string * json.Value)) :
  forall (m : gmap string T) (e : option json.Error) (m' : gmap string T) e',
  fold_left
    (fun '(m, err) '(key, x) =>
       let '(t, e) := elem x zero in (<[key := t]> m, json.saveError err e))
    kvs (m, e) = (m', e') ->
  (forall key x, (key, x) ∈ kvs -> is_Some (m' !! key))
  /\ (forall key, is_Some (m !! key) -> is_Some (m' !! key))
  /\ (forall key t, m' !! key = Some t ->
        m !! key = Some t \/ exists x, (key, x) ∈ kvs /\ t = (elem x zero).1)
  /\ (e = None -> Forall (fun kx => (elem kx.2 zero).2 = None) kvs -> e' = None).
Proof.
  induction kvs as [|[key x] rest IH]; intros m e m' e' H; cbn [fold_left] in H.
  - injection H as <- <-. repeat split; try done.
    + intros ?? Hin. by apply elem_of_nil in Hin.
    + intros. by left.
  - destruct (elem x zero) as [t ex] eqn:Hx.
    apply IH in H as (Hin & Hkeep & Hfrom & Hclean). repeat split.
    + intros key' x' [Heq|Hr]%elem_of_cons; [|by eapply Hin].
      injection Heq as -> ->. apply Hkeep. rewrite lookup_insert_eq. by eexists.
    + intros key' Hm. apply Hkeep. rewrite lookup_insert.
      case_decide; [by eexists | done].
    + intros key' t' Hm. destruct (Hfrom _ _ Hm) as [Hi|(x' & Hx' & ->)].
      * rewrite lookup_insert in Hi. case_decide as Hd.
        -- injection Hi as <-. subst key'. right. exists x.
           split; [apply elem_of_cons; by left | by rewrite Hx].
        -- by left.
      * right. exists x'. split; [apply elem_of_cons; by right | done].
    + intros -> Hall. apply Forall_cons in Hall as [Hx' Hall].
      cbn in Hx'. rewrite Hx in Hx'. cbn in Hx'. subst ex. by apply Hclean.
Qed.

(** What [json.Slice] makes of an array for a slice that was nil. *)
Lemma elements_fresh {T} (zero : T) (elem : json.Decoder T) xs :
  (json.elements zero elem xs []).1 = map (fun x => (elem x zero).1) xs
  /\ (Forall (fun x => (elem x zero).2 = None) xs ->
      (json.elements zero elem xs []).2 = None).
Proof.
  induction xs as [|x xs [IHv IHe]]; [done|]. cbn [json.elements hd tl map].
  destruct (elem x zero) as [t e] eqn:Hex.
  destruct (json.elements zero elem xs []) as [ts e'].
  cbn in *. split; [by rewrite IHv|].
  intros [Hx Hxs]%Forall_cons. rewrite Hex in Hx. cbn in Hx. subst e.
  by apply IHe.
Qed.


Lemma mapiter_elem_of order {V} (m : gmap string V) key v :
  (key, v) ∈ mapiter order V m <-> m !! key = Some v.
Proof. by rewrite (mapiter_perm order V m), elem_of_map_to_list. Qed.



Lemma forRange_all_parse {V}
  (body : string -> V -> gmap Z V -> gmap Z V + (option (gmap Z V) * option error))
  entries :
  (forall key v s,
     body key v s =
       let '(itemID, err) := strconv.ParseInt key 10 16 in
       match err with
       | Some err => inr (None, Some (errParsingItemID err))
       | None => inl (<[int16 itemID := v]> s)
       end) ->
  Forall (fun kv => (strconv.ParseInt kv.1 10 16).2 = None) entries ->
  forall s, exists m, forRange body entries s = inl m.
Proof.
  intros body_eq. induction 1 as [|[key v] rest Hk _ IH]; intros s; [by eexists|].
  cbn [forRange]. rewrite body_eq. cbn in Hk.
  destruct (strconv.ParseInt key 10 16) as [n e]. cbn in Hk. subst e. apply IH.
Qed.

(** A response object whose [data] members are all null or empty leaves
    the map nil or empty. *)
Lemma Map_stays_empty {T} (zero : T) (elem : json.Decoder T) members rsp err :
  Forall (fun m : string * json.Value =>
            names_data m.1 = true -> m.2 = json.Null \/ m.2 = json.Object [])
    members ->
  json.Struct (response_fields (json.Map zero elem)) (json.Object members)
    {| Data := None |} = (rsp, err) ->
  err = None /\ default (∅ : gmap string T) (Data rsp) = ∅.
Proof.
  intros Hall H. unfold json.Struct in H.
  match type of H with
  | ?t = _ => assert (t.2 = None /\ default (∅ : gmap string T) (Data t.1) = ∅)
                as Hinv
  end.
  { apply (response_members_ind (json.Map zero elem)
             (fun acc => acc.2 = None /\ default ∅ (Data acc.1) = ∅)); [|done].
    intros s e key v [He Hd] Hk Hv. cbn in He, Hd. subst e.
    rewrite Forall_forall in Hall. destruct (Hall _ Hv Hk) as [Hn|Hn];
      cbn [snd] in Hn; subst v; cbn; [done|]. by rewrite Hd. }
  by rewrite H in Hinv.
Qed.

Lemma Slice_stays_empty {T} (zero : T) (elem : json.Decoder T) members rsp err :
  Forall (fun m : string * json.Value =>
            names_data m.1 = true -> m.2 = json.Null \/ m.2 = json.Array [])
    members ->
  json.Struct (response_fields (json.Slice zero elem)) (json.Object members)
    {| Data := None |} = (rsp, err) ->
  err = None /\ (Data rsp = None \/ Data rsp = Some []).
Proof.
  intros Hall H. unfold json.Struct in H.
  match type of H with
  | ?t = _ => assert (t.2 = None /\ (Data t.1 = None \/ Data t.1 = Some []))
                as Hinv
  end.
  { apply (response_members_ind (json.Slice zero elem)
             (fun acc => acc.2 = None /\ (Data acc.1 = None \/ Data acc.1 = Some [])));
      [|by split; [|left]].
    intros s e key v [He Hd] Hk Hv. cbn in He, Hd. subst e.
    rewrite Forall_forall in Hall. destruct (Hall _ Hv Hk) as [Hn|Hn];
      cbn [snd] in Hn; subst v; cbn; split; auto. }
  by rewrite H in Hinv.
Qed.

Lemma mapiter_empty order V : mapiter order V ∅ = [].
Proof.
  apply Permutation_nil. symmetry.
  by rewrite (mapiter_perm order V ∅), map_to_list_empty.
Qed.

(** C9 as stated fails twice: Timeseries takes an empty object under
    [data] for a type error, and LatestPrices reads a member named [Data],
    in an object with no [data] key, as the data. *)
Lemma no_data_key_counterexamples :
  (Client.Timeseries
     (NewClient "osrswiki-cli/0.0.1"
        (fun _ => http.Responded (ok (json.Object [("data", json.Object [])]))))
     WorldRegular FiveMinutes 4151 []).1
  = (None, Some (errUnmarshal (json.UnmarshalTypeError "object")))
  /\ (Client.LatestPrices listOrder
        (NewClient "osrswiki-cli/0.0.1"
           (fun _ => http.Responded
                       (ok (json.Object
                              [("Data",
                                json.Object
                                  [("2", price "160" "1700000000" "150"
                                           "1700000100")])]))))
        WorldRegular [] []).1
     = (Some {[ 2 := {| High := 160; HighTime := 1700000000; Low := 150;
                        LowTime := 1700000100 |} ]}, None).
Proof. split; vm_compute; reflexivity. Qed.

(** C9, amended: when every member of the response object that selects
    [data] (its name is [data] up to letter case) is null or an empty
    object, none at all included, LatestPrices and PriceData succeed with an
    empty mapping; when every such member is null or an empty array,
    Timeseries succeeds with an empty sequence, nil or of length zero. *)
Theorem no_data_gives_empty order c world itemIDs interval timestamp timestep
  itemID log members :
  (Forall (fun m : string * json.Value =>
             names_data m.1 = true -> m.2 = json.Null \/ m.2 = json.Object [])
     members ->
   (forall r, answered c (Client.LatestPrices order c world itemIDs) log
                (ok (json.Object members)) r ->
              r = (Some ∅, None))
   /\ (forall r, answered c (Client.PriceData order c world interval timestamp)
                   log (ok (json.Object members)) r ->
                 r = (Some ∅, None)))
  /\ (Forall (fun m : string * json.Value =>
                names_data m.1 = true -> m.2 = json.Null \/ m.2 = json.Array [])
        members ->
      forall r, answered c (Client.Timeseries c world timestep itemID) log
                  (ok (json.Object members)) r ->
                r = (None, None) \/ r = (Some [], None)).
Proof.
  split; [intros Hall; split|intros Hall].
  - intros r (req & Hrun & Hresp). rewrite LatestPrices_eq in Hrun.
    rewrite (answered_outcome _ _ _ _ _ _ _ (ex_intro _ req (conj Hrun Hresp))).
    cbn. rewrite LatestPrices_on_eq. cbn [json.Unmarshal].
    destruct (json.Struct _ _ _) as [rsp err] eqn:Hdec.
    apply Map_stays_empty in Hdec as [-> ->]; [|done].
    by rewrite mapiter_empty.
  - intros r (req & Hrun & Hresp). rewrite PriceData_eq in Hrun.
    destruct (_ && _).
    { injection Hrun as _ Hlog. by apply log_grows in Hlog. }
    rewrite (answered_outcome _ _ _ _ _ _ _ (ex_intro _ req (conj Hrun Hresp))).
    cbn. rewrite PriceData_on_eq. cbn [json.Unmarshal].
    destruct (json.Struct _ _ _) as [rsp err] eqn:Hdec.
    apply Map_stays_empty in Hdec as [-> ->]; [|done].
    by rewrite mapiter_empty.
  - intros r (req & Hrun & Hresp). rewrite Timeseries_eq in Hrun.
    rewrite (answered_outcome _ _ _ _ _ _ _ (ex_intro _ req (conj Hrun Hresp))).
    cbn. rewrite Timeseries_on_eq. cbn [json.Unmarshal].
    destruct (json.Struct _ _ _) as [rsp err] eqn:Hdec.
    apply Slice_stays_empty in Hdec as [-> [-> | ->]]; auto.
Qed.

Lemma no_data_gives_empty_witness :
  (Client.PriceData listOrder
     (NewClient "osrswiki-cli/0.0.1"
        (fun _ => http.Responded
                    (ok (json.Object [("error", json.Str "none");
                                      ("data", json.Null)]))))
     WorldRegular FiveMinutes None []).1
  = (Some ∅, None).
Proof.
  refine (proj2 (proj1 (no_data_gives_empty listOrder
                   (NewClient "osrswiki-cli/0.0.1"
                      (fun _ => http.Responded
                         (ok (json.Object [("error", json.Str "none");
                                           ("data", json.Null)]))))
                   WorldRegular [] FiveMinutes None FiveMinutes 0 []
                   [("error", json.Str "none"); ("data", json.Null)]) _) _ _).
  - repeat constructor; vm_compute; discriminate.
  - eexists. split; [vm_compute; reflexivity | reflexivity].
Defined.

(** ** The payload under [data], and the bare array of the mapping *)

Lemma single_data_member {T} (dec : json.Decoder T) payload d0 :
  json.Struct (response_fields dec) (json.Object [("data", payload)])
    {| Data := d0 |}
  = let '(a, e) := dec payload d0 in ({| Data := a |}, e).
Proof.
  unfold json.Struct. cbn [fold_left]. rewrite lookupField_data.
  change (names_data "data") with true. cbn [field json.store Data].
  by destruct (dec payload d0).
Qed.

Lemma no_data_member {T} (dec : json.Decoder T) members s0 :
  Forall (fun m : string * json.Value => names_data m.1 = false) members ->
  json.Struct (response_fields dec) (json.Object members) s0 = (s0, None).
Proof.
  intros Hall. unfold json.Struct.
  apply (response_members_ind dec (fun acc => acc = (s0, None))); [|done].
  intros s e key v _ Hk Hv. rewrite Forall_forall in Hall.
  apply Hall in Hv. cbn [fst] in Hv. congruence.
Qed.

(** The mapping that the key loop builds from a [data] object whose keys
    all parse and whose values all decode: every member is there under its
    parsed key, and nothing else is. *)
Lemma keyed_payload {V} (zero : V) (elem : json.Decoder V) order kvs
  (body : string -> V -> gmap Z V -> gmap Z V + (option (gmap Z V) * option error))
  rsp err :
  (forall key v s,
     body key v s =
       let '(itemID, err) := strconv.ParseInt key 10 16 in
       match err with
       | Some err => inr (None, Some (errParsingItemID err))
       | None => inl (<[int16 itemID := v]> s)
       end) ->
  Forall (fun kx : string * json.Value => (elem kx.2 zero).2 = None) kvs ->
  Forall (fun kx : string * json.Value =>
            (strconv.ParseInt kx.1 10 16).2 = None) kvs ->
  json.Struct (response_fields (json.Map zero elem))
    (json.Object [("data", json.Object kvs)]) {| Data := None |} = (rsp, err) ->
  err = None
  /\ exists m,
       forRange body (mapiter order V (default ∅ (Data rsp))) ∅ = inl m
       /\ (forall key x, (key, x) ∈ kvs ->
             exists n, strconv.ParseInt key 10 16 = (n, None) /\ is_Some (m !! n))
       /\ (forall n v, m !! n = Some v ->
             exists key x, (key, x) ∈ kvs
                           /\ strconv.ParseInt key 10 16 = (n, None)
                           /\ v = (elem x zero).1).
Proof.
  intros body_eq Hclean Hparse. rewrite single_data_member. cbn [json.Map default].
  destruct (fold_left _ kvs _) as [m' e'] eqn:Hm. intros [= <- <-].
  apply Map_members in Hm as (Hin & _ & Hfrom & Herr).
  split; [by apply Herr|]. cbn [Data default].
  destruct (forRange_all_parse body (mapiter order V m') body_eq) with (s := (∅ : gmap Z V))
    as [m Hloop].
  { apply Forall_forall. intros [key v] Hkv. apply mapiter_elem_of in Hkv.
    destruct (Hfrom _ _ Hkv) as [Hempty|(x & Hx & _)].
    - by rewrite lookup_empty in Hempty.
    - rewrite Forall_forall in Hparse. apply (Hparse _ Hx). }
  exists m. split; [done|]. split.
  - intros key x Hx. destruct (Hin _ _ Hx) as [v Hv].
    apply (mapiter_elem_of order) in Hv.
    apply (forRange_covers _ body_eq _ _ _ _ _ Hloop Hv).
  - intros n v Hn.
    destruct (forRange_lookup _ body_eq _ _ _ _ _ Hloop Hn)
      as [Hempty|(key & Hkv & Hp)].
    { by rewrite lookup_empty in Hempty. }
    apply mapiter_elem_of in Hkv.
    destruct (Hfrom _ _ Hkv) as [Hempty|(x & Hx & ->)].
    { by rewrite lookup_empty in Hempty. }
    eauto.
Qed.

(** C4: ItemMapping reads the body as a bare array and returns one record
    per element, in the order of the array (an object that wraps the array
    under [data] is a type error); Timeseries, LatestPrices and PriceData
    read their payload from the member [data] of an object: Timeseries
    returns one point per element of the array there, in order (a bare array
    is a type error), and the two mappings hold exactly the members of the
    object there, each under its parsed key (members of the top-level object
    itself are not looked at). *)
Theorem mapping_is_bare_others_wrapped order c world itemIDs interval timestamp
  timestep itemID log :
  (forall elems r,
     Forall (fun x => (json.Struct ItemMapping_fields x zeroItemMapping).2 = None)
       elems ->
     answered c (Client.ItemMapping c world) log (ok (json.Array elems)) r ->
     r = (Some (map (fun x => (json.Struct ItemMapping_fields x zeroItemMapping).1)
                  elems), None))
  /\ (forall payload r,
        answered c (Client.ItemMapping c world) log
          (ok (json.Object [("data", payload)])) r ->
        r = (None, Some (errUnmarshal (json.UnmarshalTypeError "object"))))
  /\ (forall elems r,
        Forall (fun x => (json.Struct TimeseriesData_fields x
                            zeroTimeseriesData).2 = None) elems ->
        answered c (Client.Timeseries c world timestep itemID) log
          (ok (json.Object [("data", json.Array elems)])) r ->
        r = (Some (map (fun x => (json.Struct TimeseriesData_fields x
                                    zeroTimeseriesData).1) elems), None))
  /\ (forall elems r,
        answered c (Client.Timeseries c world timestep itemID) log
          (ok (json.Array elems)) r ->
        r = (None, Some (errUnmarshal (json.UnmarshalTypeError "array"))))
  /\ (forall kvs r,
        Forall (fun kx : string * json.Value =>
                  (json.Struct LatestPrice_fields kx.2 zeroLatestPrice).2 = None)
          kvs ->
        Forall (fun kx : string * json.Value =>
                  (strconv.ParseInt kx.1 10 16).2 = None) kvs ->
        answered c (Client.LatestPrices order c world itemIDs) log
          (ok (json.Object [("data", json.Object kvs)])) r ->
        exists m,
          r = (Some m, None)
          /\ (forall key x, (key, x) ∈ kvs ->
                exists n, strconv.ParseInt key 10 16 = (n, None)
                          /\ is_Some (m !! n))
          /\ (forall n v, m !! n = Some v ->
                exists key x,
                  (key, x) ∈ kvs
                  /\ strconv.ParseInt key 10 16 = (n, None)
                  /\ v = (json.Struct LatestPrice_fields x zeroLatestPrice).1))
  /\ (forall kvs r,
        Forall (fun kx : string * json.Value => names_data kx.1 = false) kvs ->
        answered c (Client.LatestPrices order c world itemIDs) log
          (ok (json.Object kvs)) r ->
        r = (Some ∅, None))
  /\ (forall kvs r,
        Forall (fun kx : string * json.Value =>
                  (json.Struct PriceData_fields kx.2 zeroPriceData).2 = None)
          kvs ->
        Forall (fun kx : string * json.Value =>
                  (strconv.ParseInt kx.1 10 16).2 = None) kvs ->
        answered c (Client.PriceData order c world interval timestamp) log
          (ok (json.Object [("data", json.Object kvs)])) r ->
        exists m,
          r = (Some m, None)
          /\ (forall key x, (key, x) ∈ kvs ->
                exists n, strconv.ParseInt key 10 16 = (n, None)
                          /\ is_Some (m !! n))
          /\ (forall n v, m !! n = Some v ->
                exists key x,
                  (key, x) ∈ kvs
                  /\ strconv.ParseInt key 10 16 = (n, None)
                  /\ v = (json.Struct PriceData_fields x zeroPriceData).1))
  /\ (forall kvs r,
        Forall (fun kx : string * json.Value => names_data kx.1 = false) kvs ->
        answered c (Client.PriceData order c world interval timestamp) log
          (ok (json.Object kvs)) r ->
        r = (Some ∅, None)).
Proof.
  split; [|split; [|split; [|split; [|split; [|split; [|split]]]]]].
  - intros elems r Hclean (req & Hrun & Hresp). rewrite ItemMapping_eq in Hrun.
    rewrite (answered_outcome _ _ _ _ _ _ _ (ex_intro _ req (conj Hrun Hresp))).
    cbn. rewrite ItemMapping_on_eq. cbn [json.Unmarshal json.Slice default].
    destruct (elements_fresh zeroItemMapping (json.Struct ItemMapping_fields) elems)
      as [Hv He].
    destruct (json.elements _ _ _ _) as [ts e]. cbn in Hv, He.
    by rewrite (He Hclean), Hv.
  - intros payload r (req & Hrun & Hresp). rewrite ItemMapping_eq in Hrun.
    rewrite (answered_outcome _ _ _ _ _ _ _ (ex_intro _ req (conj Hrun Hresp))).
    cbn. by rewrite ItemMapping_on_eq.
  - intros elems r Hclean (req & Hrun & Hresp). rewrite Timeseries_eq in Hrun.
    rewrite (answered_outcome _ _ _ _ _ _ _ (ex_intro _ req (conj Hrun Hresp))).
    cbn. rewrite Timeseries_on_eq. cbn [json.Unmarshal].
    rewrite single_data_member. cbn [json.Slice default].
    destruct (elements_fresh zeroTimeseriesData
                (json.Struct TimeseriesData_fields) elems) as [Hv He].
    destruct (json.elements _ _ _ _) as [ts e]. cbn in Hv, He.
    by rewrite (He Hclean), Hv.
  - intros elems r (req & Hrun & Hresp). rewrite Timeseries_eq in Hrun.
    rewrite (answered_outcome _ _ _ _ _ _ _ (ex_intro _ req (conj Hrun Hresp))).
    cbn. by rewrite Timeseries_on_eq.
  - intros kvs r Hclean Hparse (req & Hrun & Hresp).
    rewrite LatestPrices_eq in Hrun.
    rewrite (answered_outcome _ _ _ _ _ _ _ (ex_intro _ req (conj Hrun Hresp))).
    cbn. rewrite LatestPrices_on_eq. cbn [json.Unmarshal].
    destruct (json.Struct _ _ _) as [rsp err] eqn:Hdec.
    eapply (keyed_payload _ _ order) in Hdec as (-> & m & -> & Hin & Hfrom);
      [|done..].
    by exists m.
  - intros kvs r Hnone (req & Hrun & Hresp). rewrite LatestPrices_eq in Hrun.
    rewrite (answered_outcome _ _ _ _ _ _ _ (ex_intro _ req (conj Hrun Hresp))).
    cbn. rewrite LatestPrices_on_eq. cbn [json.Unmarshal].
    rewrite no_data_member by done. cbn [Data default].
    by rewrite mapiter_empty.
  - intros kvs r Hclean Hparse (req & Hrun & Hresp).
    rewrite PriceData_eq in Hrun. destruct (_ && _).
    { injection Hrun as _ Hlog. by apply log_grows in Hlog. }
    rewrite (answered_outcome _ _ _ _ _ _ _ (ex_intro _ req (conj Hrun Hresp))).
    cbn. rewrite PriceData_on_eq. cbn [json.Unmarshal].
    destruct (json.Struct _ _ _) as [rsp err] eqn:Hdec.
    eapply (keyed_payload _ _ order) in Hdec as (-> & m & -> & Hin & Hfrom);
      [|done..].
    by exists m.
  - intros kvs r Hnone (req & Hrun & Hresp). rewrite PriceData_eq in Hrun.
    destruct (_ && _).
    { injection Hrun as _ Hlog. by apply log_grows in Hlog. }
    rewrite (answered_outcome _ _ _ _ _ _ _ (ex_intro _ req (conj Hrun Hresp))).
    cbn. rewrite PriceData_on_eq. cbn [json.Unmarshal].
    rewrite no_data_member by done. cbn [Data default].
    by rewrite mapiter_empty.
Qed.

Lemma mapping_is_bare_others_wrapped_witness :
  (Client.ItemMapping
     (NewClient "osrswiki-cli/0.0.1" (fun _ => http.Responded (ok two_items)))
     WorldRegular []).1
  = (Some [ {| ID := 4151; Icon := "Abyssal whip.png"; Name := "Abyssal whip";
               Examine := "A weapon from the abyss."; Members := true;
               Value := 120001; HighAlch := 72000; LowAlch := 48000;
               Limit := 70 |};
            {| ID := 2; Icon := "Cannonball.png"; Name := "Cannonball";
               Examine := "Ammo for the Dwarf Cannon."; Members := true;
               Value := 5; HighAlch := 3; LowAlch := 2; Limit := 11000 |} ],
     None).
Proof.
  refine (proj1 (mapping_is_bare_others_wrapped listOrder
                   (NewClient "osrswiki-cli/0.0.1"
                      (fun _ => http.Responded (ok two_items)))
                   WorldRegular [] FiveMinutes None FiveMinutes 0 [])
            [item "4151" "Abyssal whip.png" "Abyssal whip"
               "A weapon from the abyss." true "120001" "72000" "48000" "70";
             item "2" "Cannonball.png" "Cannonball"
               "Ammo for the Dwarf Cannon." true "5" "3" "2" "11000"]
            _ _ _).
  - repeat constructor.
  - eexists. split; [vm_compute; reflexivity | reflexivity].
Defined.

(** ** The scenarios of the specification, run *)

Example latest_prices_scenario :
  Client.LatestPrices listOrder
    (NewClient "osrswiki-cli/0.0.1"
       (fun _ => http.Responded
          (ok (json.Object
                 [("data",
                   json.Object
                     [("4151", price "1000" "1700000000" "950" "1700000100")])]))))
    WorldRegular [4151] []
  = ((Some {[ 4151 := {| High := 1000; HighTime := 1700000000; Low := 950;
                         LowTime := 1700000100 |} ]}, None),
     [ {| http.Method := "GET";
          http.URL := "https://prices.runescape.wiki/api/v1/osrs/latest";
          http.UserAgent := "osrswiki-cli/0.0.1";
          http.Query := {[ "id" := "4151" ]} |} ]).
Proof. vm_compute. reflexivity. Qed.

Example timeseries_forwards_any_token :
  (Client.Timeseries
     (NewClient "osrswiki-cli/0.0.1"
        (fun _ => http.Responded (ok (json.Object [("data", json.Array [])]))))
     WorldFreshStart "2w" (-7) []).2
  = [ {| http.Method := "GET";
         http.URL := "https://prices.runescape.wiki/api/v1/fsw/timeseries";
         http.UserAgent := "osrswiki-cli/0.0.1";
         http.Query := {[ "id" := "-7"; "timestep" := "2w" ]} |} ].
Proof. vm_compute. reflexivity. Qed.

Example cancelled_call_returns_nothing :
  (Client.ItemMapping
     (NewClient "osrswiki-cli/0.0.1" (fun _ => http.Failed "context canceled"))
     WorldRegular []).1
  = (None, Some (errSendingRequest "context canceled")).
Proof. vm_compute. reflexivity. Qed.

Example ParseInt_at_the_int16_bounds :
  strconv.ParseInt "32767" 10 16 = (32767, None)
  /\ strconv.ParseInt "-32768" 10 16 = (-32768, None)
  /\ strconv.ParseInt "32768" 10 16
     = (32767, Some (strconv.rangeError "ParseInt" "32768"))
  /\ strconv.ParseInt "-32769" 10 16
     = (-32768, Some (strconv.rangeError "ParseInt" "-32769"))
  /\ strconv.ParseInt "99999999" 10 16
     = (32767, Some (strconv.rangeError "ParseInt" "99999999"))
  /\ strconv.ParseInt "4151 " 10 16
     = (0, Some (strconv.syntaxError "ParseInt" "4151 "))
  /\ strconv.ParseInt "" 10 16 = (0, Some (strconv.syntaxError "ParseInt" "")).
Proof. repeat split; vm_compute; reflexivity. Qed.

Example FormatInt_renders_decimal :
  strconv.FormatInt 4151 = "4151" /\ strconv.FormatInt 0 = "0"
  /\ strconv.FormatInt (-32768) = "-32768".
Proof. repeat split; vm_compute; reflexivity. Qed.

(** [json.Unmarshal] fills in what it can before it reports a type error;
    ItemMapping hands none of that back. *)
Example partly_decoded_mapping_is_dropped :
  json.Unmarshal (json.Slice zeroItemMapping (json.Struct ItemMapping_fields))
    (Some (json.Document
             (json.Array [item "2" "Cannonball.png" "Cannonball"
                            "Ammo for the Dwarf Cannon." true "5" "3" "2"
                            "11000";
                          json.Str "oops"])))
    None
  = (Some [ {| ID := 2; Icon := "Cannonball.png"; Name := "Cannonball";
               Examine := "Ammo for the Dwarf Cannon."; Members := true;
               Value := 5; HighAlch := 3; LowAlch := 2; Limit := 11000 |};
            zeroItemMapping ],
     Some (json.UnmarshalTypeError "string"))
  /\ (Client.ItemMapping
        (NewClient "osrswiki-cli/0.0.1"
           (fun _ => http.Responded
              (ok (json.Array [item "2" "Cannonball.png" "Cannonball"
                                 "Ammo for the Dwarf Cannon." true "5" "3" "2"
                                 "11000";
                               json.Str "oops"]))))
        WorldRegular []).1
     = (None, Some (errUnmarshal (json.UnmarshalTypeError "string"))).
Proof. split; vm_compute; reflexivity. Qed.


(** ** strconv: identifiers written and read back *)

Lemma uint_value_mono d : forall acc, 0 <= acc -> acc <= uint_value d acc.
Proof.
  induction d as [|d IH|d IH|d IH|d IH|d IH|d IH|d IH|d IH|d IH|d IH];
    intros acc Hacc; cbn [uint_value]; [lia|..];
    (etransitivity; [|apply IH]; lia).
Qed.

Lemma uint_value_pos d : forall p,
  uint_value d (Zpos p) = Zpos (Pos.of_uint_acc d p).
Proof.
  induction d as [|d IH|d IH|d IH|d IH|d IH|d IH|d IH|d IH|d IH|d IH];
    intros p; cbn [uint_value Pos.of_uint_acc]; [done|..];
    rewrite <- IH; f_equal; lia.
Qed.

Lemma uint_value_of_uint d : uint_value d 0 = Z.of_N (Pos.of_uint d).
Proof.
  induction d as [|d IH|d IH|d IH|d IH|d IH|d IH|d IH|d IH|d IH|d IH];
    cbn [uint_value Pos.of_uint]; [done|exact IH|..];
    apply (uint_value_pos d).
Qed.

Lemma uint64_small z : 0 <= z < 2 ^ 64 -> uint64 z = z.
Proof. intros H. unfold uint64. by rewrite Z.mod_small. Qed.

Lemma ParseUint_loop_digits maxVal d : forall acc,
  0 <= acc -> maxVal < 2 ^ 64 -> uint_value d acc <= maxVal ->
  strconv.ParseUint_loop 10 ((2 ^ 64 - 1) / 10 + 1) maxVal
    (NilEmpty.string_of_uint d) acc
  = (uint_value d acc, None).
Proof.
  change ((2 ^ 64 - 1) / 10 + 1) with 1844674407370955162.
  change (2 ^ 64) with 18446744073709551616.
  induction d as [|d IH|d IH|d IH|d IH|d IH|d IH|d IH|d IH|d IH|d IH];
    intros acc Hacc Hmax Hv; [done|..];
    cbn [uint_value NilEmpty.string_of_uint strconv.ParseUint_loop] in *;
    match goal with
    | |- context [strconv.digit ?c] =>
        let k := eval vm_compute in (strconv.digit c) in
        change (strconv.digit c) with k
    end;
    cbv iota beta;
    match goal with
    | H : uint_value d ?a <= maxVal |- _ =>
        pose proof (uint_value_mono d a ltac:(lia)) as Hm
    end;
    change (10 <=? _) with false; cbv iota;
    (replace (1844674407370955162 <=? acc) with false
       by (symmetry; apply Z.leb_gt; lia));
    rewrite (uint64_small (acc * 10))
      by (change (2 ^ 64) with 18446744073709551616; lia);
    rewrite uint64_small by (change (2 ^ 64) with 18446744073709551616; lia);
    match goal with
    | |- context [(?a <? ?b) || (?c <? ?e)] =>
        replace ((a <? b) || (c <? e)) with false
          by (symmetry; apply orb_false_iff; split; apply Z.ltb_ge; lia)
    end;
    rewrite ?Z.add_0_r; apply IH; lia.
Qed.

Lemma string_of_uint_head d :
  d <> Decimal.Nil ->
  exists c rest,
    NilEmpty.string_of_uint d = String c rest
    /\ Ascii.eqb c "+" = false /\ Ascii.eqb c "-" = false.
Proof. destruct d; [done|..]; intros _; by do 2 eexists. Qed.

Lemma NilZero_nonnil d :
  d <> Decimal.Nil -> NilZero.string_of_uint d = NilEmpty.string_of_uint d.
Proof. by destruct d. Qed.

Lemma ParseUint_digits d bitSize :
  d <> Decimal.Nil -> 0 < bitSize <= 64 -> uint_value d 0 < 2 ^ bitSize ->
  strconv.ParseUint (NilEmpty.string_of_uint d) 10 bitSize
  = (uint_value d 0, None).
Proof.
  intros Hd Hb Hv. destruct (string_of_uint_head d Hd) as (c & rest & Hs & _).
  unfold strconv.ParseUint. rewrite Hs, <- Hs.
  replace (bitSize =? 0) with false by (symmetry; apply Z.eqb_neq; lia).
  rewrite ParseUint_loop_digits; [done|done| |lia].
  assert (2 ^ bitSize <= 2 ^ 64) by (apply Z.pow_le_mono_r; lia). lia.
Qed.

Lemma int64_neg un : 0 <= un <= 2 ^ 63 -> int64 (- int64 un) = - un.
Proof.
  intros H. destruct (decide (un = 2 ^ 63)) as [->|Hne]; [done|].
  rewrite (int64_small un) by lia. apply int64_small. lia.
Qed.

(** Reading back what [FormatInt] wrote, at any width up to 64 bits. *)
Lemma ParseInt_FormatInt bitSize z :
  0 < bitSize <= 64 ->
  - 2 ^ (bitSize - 1) <= z < 2 ^ (bitSize - 1) ->
  strconv.ParseInt (strconv.FormatInt z) 10 bitSize = (z, None).
Proof.
  intros Hb Hz.
  assert (0 < 2 ^ (bitSize - 1) <= 2 ^ 63) as Hc.
  { split; [apply Z.pow_pos_nonneg; lia | apply Z.pow_le_mono_r; lia]. }
  assert (2 ^ bitSize = 2 * 2 ^ (bitSize - 1)) as Hp.
  { rewrite <- Z.pow_succ_r by lia. f_equal. lia. }
  unfold strconv.FormatInt, strconv.ParseInt.
  replace (bitSize =? 0) with false by (symmetry; apply Z.eqb_neq; lia).
  destruct z as [|p|p]; cbn [Z.to_int NilZero.string_of_int NilZero.string_of_uint].
  - change (match Decimal.zero with Decimal.Nil => "0" | _ => _ end)
      with (NilEmpty.string_of_uint (Decimal.D0 Decimal.Nil)).
    assert (Decimal.D0 Decimal.Nil <> Decimal.Nil) as Hnil by done.
    destruct (string_of_uint_head _ Hnil) as (c & rest & Hs & Hplus & Hminus).
    rewrite Hs, Hplus, Hminus, <- Hs.
    rewrite ParseUint_digits; [|done|lia|cbn; lia].
    cbn [uint_value negb andb Z.mul].
    replace (_ <=? _) with false by (symmetry; apply Z.leb_gt; lia).
    done.
  - pose proof (DecimalPos.Unsigned.to_uint_nonnil p) as Hnil.
    pose proof (uint_value_of_uint (Pos.to_uint p)) as Hval.
    rewrite DecimalPos.Unsigned.of_to in Hval. cbn [Z.of_N] in Hval.
    destruct (string_of_uint_head _ Hnil) as (c & rest & Hs & Hplus & Hminus).
    rewrite (NilZero_nonnil _ Hnil).
    rewrite Hs, Hplus, Hminus, <- Hs.
    rewrite ParseUint_digits; [|done|lia|lia]. rewrite Hval. cbn [negb andb].
    replace (_ <=? _) with false by (symmetry; apply Z.leb_gt; lia).
    by rewrite int64_small by lia.
  - pose proof (DecimalPos.Unsigned.to_uint_nonnil p) as Hnil.
    pose proof (uint_value_of_uint (Pos.to_uint p)) as Hval.
    rewrite DecimalPos.Unsigned.of_to in Hval. cbn [Z.of_N] in Hval.
    rewrite (NilZero_nonnil _ Hnil).
    change (Ascii.eqb "-" "+") with false. change (Ascii.eqb "-" "-") with true.
    cbv iota. rewrite ParseUint_digits; [|done|lia|lia]. rewrite Hval.
    cbn [negb andb].
    replace (_ <? _) with false by (symmetry; apply Z.ltb_ge; lia).
    by rewrite int64_neg by lia.
Qed.

(** ** Further properties of the four operations *)

Lemma on_invalid order :
  LatestPrices_on order json.Invalid
    = (None, Some (errUnmarshal json.SyntaxError))
  /\ ItemMapping_on json.Invalid = (None, Some (errUnmarshal json.SyntaxError))
  /\ PriceData_on order json.Invalid
     = (None, Some (errUnmarshal json.SyntaxError))
  /\ Timeseries_on json.Invalid = (None, Some (errUnmarshal json.SyntaxError)).
Proof.
  by rewrite LatestPrices_on_eq, ItemMapping_on_eq, PriceData_on_eq,
    Timeseries_on_eq.
Qed.

Lemma outcome_one_get {A} c url query
  (on : json.Text -> option A * option error) log :
  one_get_at_most (userAgent c) log (outcome c url query on log).2.
Proof.
  unfold outcome. destruct (url.Parse url); [by left|].
  right. by exists (request c url query).
Qed.

(** X1: a call sends at most one request, after the ones sent before it;
    the request is a GET and carries the User-Agent given to NewClient. *)
Theorem one_get_per_call order ua network world itemIDs interval timestamp
  timestep itemID log :
  let c := NewClient ua network in
  one_get_at_most ua log (Client.LatestPrices order c world itemIDs log).2
  /\ one_get_at_most ua log (Client.ItemMapping c world log).2
  /\ one_get_at_most ua log
       (Client.PriceData order c world interval timestamp log).2
  /\ one_get_at_most ua log (Client.Timeseries c world timestep itemID log).2.
Proof.
  intros c.
  rewrite LatestPrices_eq, ItemMapping_eq, PriceData_eq, Timeseries_eq.
  split; [|split; [|split]]; try apply (outcome_one_get c).
  destruct (_ && _); [by left | apply (outcome_one_get c)].
Qed.

Lemma outcome_nothing_sent {A} c url query
  (on : json.Text -> option A * option error) log :
  (forall b r e, on b = (r, Some e) -> r = None /\ decodeError e) ->
  (outcome c url query on log).2 = log
  <-> exists e, (outcome c url query on log).1 = (None, Some e) /\ localError e.
Proof.
  intros Hon. unfold outcome. destruct (url.Parse url) as [cause|]; cbn [fst snd].
  { split; [|done]. intros _. eexists. split; [done|]. right. by eexists. }
  split; [by intros ?%eq_sym%log_grows|].
  intros (e & He & Hlocal). exfalso.
  destruct (httpClient c _) as [?|resp].
  { injection He as <-. by destruct Hlocal as [|[]]. }
  destruct (_ =? _).
  2: { injection He as <-. by destruct Hlocal as [|[]]. }
  destruct (http.body resp) as [?|b].
  { injection He as <-. by destruct Hlocal as [|[]]. }
  apply Hon in He as [_ [[? ->]|[? ->]]]; by destruct Hlocal as [|[]].
Qed.

(** X2: a call leaves the list of requests as it was exactly when it
    returns no data and a local error: PriceData's interval error or the
    request-construction error.  Any other outcome, success or failure, has
    put a request on the wire. *)
Theorem nothing_sent_iff_local_error order c world itemIDs interval timestamp
  timestep itemID log :
  ((Client.LatestPrices order c world itemIDs log).2 = log
   <-> exists e, (Client.LatestPrices order c world itemIDs log).1
                 = (None, Some e) /\ localError e)
  /\ ((Client.ItemMapping c world log).2 = log
      <-> exists e, (Client.ItemMapping c world log).1 = (None, Some e)
                    /\ localError e)
  /\ ((Client.PriceData order c world interval timestamp log).2 = log
      <-> exists e, (Client.PriceData order c world interval timestamp log).1
                    = (None, Some e) /\ localError e)
  /\ ((Client.Timeseries c world timestep itemID log).2 = log
      <-> exists e, (Client.Timeseries c world timestep itemID log).1
                    = (None, Some e) /\ localError e).
Proof.
  rewrite LatestPrices_eq, ItemMapping_eq, PriceData_eq, Timeseries_eq.
  split; [|split; [|split]].
  - apply outcome_nothing_sent, LatestPrices_on_error.
  - apply outcome_nothing_sent, ItemMapping_on_error.
  - destruct (_ && _); [|apply outcome_nothing_sent, PriceData_on_error].
    split; [|done]. intros _. eexists. split; [done|]. by left.
  - apply outcome_nothing_sent, Timeseries_on_error.
Qed.

Lemma sent_outcome {A} c url query (on : json.Text -> option A * option error)
  log req r :
  outcome c url query on log = (r, (log ++ [req])%list) ->
  req = request c url query
  /\ r = match httpClient c req with
         | http.Failed e => (None, Some (errSendingRequest e))
         | http.Responded resp =>
             if http.StatusCode resp =? http.StatusOK then
               match http.body resp with
               | http.Broken e => (None, Some (errReadingBody e))
               | http.Bytes b => on b
               end
             else (None, Some (errStatusCode (http.StatusCode resp)))
         end.
Proof.
  unfold outcome. destruct (url.Parse url).
  - intros [= _ Hlog]. by apply log_grows in Hlog.
  - intros [= Hr Hlog]. apply app_inv_head in Hlog. by injection Hlog as <-.
Qed.

(** What a call returns is read off the one request it sent. *)
Lemma calls_sent order c world itemIDs interval timestamp timestep itemID log
  req :
  (forall r,
     Client.LatestPrices order c world itemIDs log = (r, (log ++ [req])%list) ->
     r = match httpClient c req with
         | http.Failed e => (None, Some (errSendingRequest e))
         | http.Responded resp =>
             if http.StatusCode resp =? http.StatusOK then
               match http.body resp with
               | http.Broken e => (None, Some (errReadingBody e))
               | http.Bytes b => LatestPrices_on order b
               end
             else (None, Some (errStatusCode (http.StatusCode resp)))
         end)
  /\ (forall r,
        Client.ItemMapping c world log = (r, (log ++ [req])%list) ->
        r = match httpClient c req with
            | http.Failed e => (None, Some (errSendingRequest e))
            | http.Responded resp =>
                if http.StatusCode resp =? http.StatusOK then
                  match http.body resp with
                  | http.Broken e => (None, Some (errReadingBody e))
                  | http.Bytes b => ItemMapping_on b
                  end
                else (None, Some (errStatusCode (http.StatusCode resp)))
            end)
  /\ (forall r,
        Client.PriceData order c world interval timestamp log
          = (r, (log ++ [req])%list) ->
        r = match httpClient c req with
            | http.Failed e => (None, Some (errSendingRequest e))
            | http.Responded resp =>
                if http.StatusCode resp =? http.StatusOK then
                  match http.body resp with
                  | http.Broken e => (None, Some (errReadingBody e))
                  | http.Bytes b => PriceData_on order b
                  end
                else (None, Some (errStatusCode (http.StatusCode resp)))
            end)
  /\ (forall r,
        Client.Timeseries c world timestep itemID log
          = (r, (log ++ [req])%list) ->
        r = match httpClient c req with
            | http.Failed e => (None, Some (errSendingRequest e))
            | http.Responded resp =>
                if http.StatusCode resp =? http.StatusOK then
                  match http.body resp with
                  | http.Broken e => (None, Some (errReadingBody e))
                  | http.Bytes b => Timeseries_on b
                  end
                else (None, Some (errStatusCode (http.StatusCode resp)))
            end).
Proof.
  rewrite LatestPrices_eq, ItemMapping_eq, PriceData_eq, Timeseries_eq.
  split; [|split; [|split]]; intros r H.
  3: destruct (_ && _); [injection H as _ Hlog; by apply log_grows in Hlog|].
  all: by apply sent_outcome in H as [_ ->].
Qed.

(** X3: when the transport fails the request a call sent (no connection, a
    timeout, a cancelled context), the call returns no data and the
    send-stage error around the transport's own. *)
Theorem transport_failure_is_a_send_error order c world itemIDs interval
  timestamp timestep itemID log req cause :
  httpClient c req = http.Failed cause ->
  (forall r,
     Client.LatestPrices order c world itemIDs log = (r, (log ++ [req])%list) ->
     r = (None, Some (errSendingRequest cause)))
  /\ (forall r,
        Client.ItemMapping c world log = (r, (log ++ [req])%list) ->
        r = (None, Some (errSendingRequest cause)))
  /\ (forall r,
        Client.PriceData order c world interval timestamp log
          = (r, (log ++ [req])%list) ->
        r = (None, Some (errSendingRequest cause)))
  /\ (forall r,
        Client.Timeseries c world timestep itemID log
          = (r, (log ++ [req])%list) ->
        r = (None, Some (errSendingRequest cause))).
Proof.
  intros Hfail.
  destruct (calls_sent order c world itemIDs interval timestamp timestep itemID
              log req) as (H1 & H2 & H3 & H4).
  rewrite Hfail in H1, H2, H3, H4. done.
Qed.

Lemma transport_failure_is_a_send_error_witness :
  (Client.Timeseries
     (NewClient "osrswiki-cli/0.0.1" (fun _ => http.Failed "context canceled"))
     WorldRegular OneHour 4151 []).1
  = (None, Some (errSendingRequest "context canceled")).
Proof.
  refine (proj2 (proj2 (proj2
            (transport_failure_is_a_send_error listOrder
               (NewClient "osrswiki-cli/0.0.1"
                  (fun _ => http.Failed "context canceled"))
               WorldRegular [] OneHour None OneHour 4151 []
               (request (NewClient "osrswiki-cli/0.0.1"
                           (fun _ => http.Failed "context canceled"))
                  "https://prices.runescape.wiki/api/v1/osrs/timeseries"
                  {[ "id" := "4151"; "timestep" := "1h" ]})
               "context canceled" _))) _ _).
  - reflexivity.
  - vm_compute. reflexivity.
Defined.

Lemma answered_200 order c world itemIDs interval timestamp timestep itemID
  log resp :
  http.StatusCode resp = http.StatusOK ->
  (forall r, answered c (Client.LatestPrices order c world itemIDs) log resp r ->
             r = match http.body resp with
                 | http.Broken e => (None, Some (errReadingBody e))
                 | http.Bytes b => LatestPrices_on order b
                 end)
  /\ (forall r, answered c (Client.ItemMapping c world) log resp r ->
                r = match http.body resp with
                    | http.Broken e => (None, Some (errReadingBody e))
                    | http.Bytes b => ItemMapping_on b
                    end)
  /\ (forall r, answered c (Client.PriceData order c world interval timestamp)
                  log resp r ->
                r = match http.body resp with
                    | http.Broken e => (None, Some (errReadingBody e))
                    | http.Bytes b => PriceData_on order b
                    end)
  /\ (forall r, answered c (Client.Timeseries c world timestep itemID) log
                  resp r ->
                r = match http.body resp with
                    | http.Broken e => (None, Some (errReadingBody e))
                    | http.Bytes b => Timeseries_on b
                    end).
Proof.
  intros Hcode. apply Z.eqb_eq in Hcode.
  split; [|split; [|split]]; intros r (req & Hrun & Hresp).
  all: destruct (calls_sent order c world itemIDs interval timestamp timestep
                   itemID log req) as (H1 & H2 & H3 & H4).
  all: first [apply H1 in Hrun | apply H2 in Hrun | apply H3 in Hrun
             | apply H4 in Hrun].
  all: by rewrite Hresp, Hcode in Hrun.
Qed.

(** X4: when the body of a 200 response cannot be read to its end, the call
    returns no data and the read-stage error around the cause. *)
Theorem unreadable_body_is_a_read_error order c world itemIDs interval
  timestamp timestep itemID log resp cause :
  http.StatusCode resp = http.StatusOK ->
  http.body resp = http.Broken cause ->
  (forall r, answered c (Client.LatestPrices order c world itemIDs) log resp r ->
             r = (None, Some (errReadingBody cause)))
  /\ (forall r, answered c (Client.ItemMapping c world) log resp r ->
                r = (None, Some (errReadingBody cause)))
  /\ (forall r, answered c (Client.PriceData order c world interval timestamp)
                  log resp r -> r = (None, Some (errReadingBody cause)))
  /\ (forall r, answered c (Client.Timeseries c world timestep itemID) log
                  resp r -> r = (None, Some (errReadingBody cause))).
Proof.
  intros Hcode Hbody.
  destruct (answered_200 order c world itemIDs interval timestamp timestep
              itemID log resp Hcode) as (H1 & H2 & H3 & H4).
  rewrite Hbody in H1, H2, H3, H4. done.
Qed.

Lemma unreadable_body_is_a_read_error_witness :
  (Client.ItemMapping
     (NewClient "osrswiki-cli/0.0.1"
        (answering 200 (http.Broken "unexpected EOF")))
     WorldRegular []).1
  = (None, Some (errReadingBody "unexpected EOF")).
Proof.
  refine (proj1 (proj2
            (unreadable_body_is_a_read_error listOrder
               (NewClient "osrswiki-cli/0.0.1"
                  (answering 200 (http.Broken "unexpected EOF")))
               WorldRegular [] OneHour None OneHour 0 []
               {| http.StatusCode := 200;
                  http.body := http.Broken "unexpected EOF" |}
               "unexpected EOF" _ _)) _ _).
  - reflexivity.
  - reflexivity.
  - eexists. split; [vm_compute; reflexivity | reflexivity].
Defined.

(** X5: when the body of a 200 response is not a JSON text, every call
    returns no data and the unmarshal error around a syntax error. *)
Theorem malformed_body_is_a_syntax_error order c world itemIDs interval
  timestamp timestep itemID log resp :
  http.StatusCode resp = http.StatusOK ->
  http.body resp = http.Bytes json.Invalid ->
  (forall r, answered c (Client.LatestPrices order c world itemIDs) log resp r ->
             r = (None, Some (errUnmarshal json.SyntaxError)))
  /\ (forall r, answered c (Client.ItemMapping c world) log resp r ->
                r = (None, Some (errUnmarshal json.SyntaxError)))
  /\ (forall r, answered c (Client.PriceData order c world interval timestamp)
                  log resp r -> r = (None, Some (errUnmarshal json.SyntaxError)))
  /\ (forall r, answered c (Client.Timeseries c world timestep itemID) log
                  resp r -> r = (None, Some (errUnmarshal json.SyntaxError))).
Proof.
  intros Hcode Hbody.
  destruct (answered_200 order c world itemIDs interval timestamp timestep
              itemID log resp Hcode) as (H1 & H2 & H3 & H4).
  destruct (on_invalid order) as (I1 & I2 & I3 & I4).
  rewrite Hbody in H1, H2, H3, H4. rewrite I1 in H1. rewrite I2 in H2.
  rewrite I3 in H3. rewrite I4 in H4. done.
Qed.

Lemma malformed_body_is_a_syntax_error_witness :
  (Client.LatestPrices listOrder
     (NewClient "osrswiki-cli/0.0.1" (answering 200 (http.Bytes json.Invalid)))
     WorldRegular [2] []).1
  = (None, Some (errUnmarshal json.SyntaxError)).
Proof.
  refine (proj1
            (malformed_body_is_a_syntax_error listOrder
               (NewClient "osrswiki-cli/0.0.1"
                  (answering 200 (http.Bytes json.Invalid)))
               WorldRegular [2] OneHour None OneHour 0 []
               {| http.StatusCode := 200;
                  http.body := http.Bytes json.Invalid |} _ _) _ _).
  - reflexivity.
  - reflexivity.
  - eexists. split; [vm_compute; reflexivity | reflexivity].
Defined.

Lemma outcome_success {A} c url query
  (on : json.Text -> option A * option error) log r :
  on json.Invalid = (None, Some (errUnmarshal json.SyntaxError)) ->
  (outcome c url query on log).1 = (r, None) ->
  exists resp doc,
    answered c (outcome c url query on) log resp (r, None)
    /\ http.StatusCode resp = http.StatusOK
    /\ http.body resp = http.Bytes (json.Document doc).
Proof.
  intros Hinv. unfold answered, outcome.
  destruct (url.Parse url); [done|]. cbn [fst].
  destruct (httpClient c _) as [?|resp] eqn:Hresp; [done|].
  destruct (_ =? _) eqn:Hcode; [|done].
  destruct (http.body resp) as [?|[|doc]] eqn:Hbody; [done|by rewrite Hinv|].
  intros Hon. exists resp, doc. apply Z.eqb_eq in Hcode.
  split; [|done]. exists (request c url query). by rewrite Hresp, Hon.
Qed.

(** X6: a call succeeds only if it sent its request and was answered with
    status 200 and a body that is a JSON document; nothing else is ever
    reported as a success. *)
Theorem success_needs_200_and_json order c world itemIDs interval timestamp
  timestep itemID log :
  (forall r,
     (Client.LatestPrices order c world itemIDs log).1 = (r, None) ->
     exists resp doc,
       answered c (Client.LatestPrices order c world itemIDs) log resp (r, None)
       /\ http.StatusCode resp = http.StatusOK
       /\ http.body resp = http.Bytes (json.Document doc))
  /\ (forall r,
        (Client.ItemMapping c world log).1 = (r, None) ->
        exists resp doc,
          answered c (Client.ItemMapping c world) log resp (r, None)
          /\ http.StatusCode resp = http.StatusOK
          /\ http.body resp = http.Bytes (json.Document doc))
  /\ (forall r,
        (Client.PriceData order c world interval timestamp log).1 = (r, None) ->
        exists resp doc,
          answered c (Client.PriceData order c world interval timestamp) log
            resp (r, None)
          /\ http.StatusCode resp = http.StatusOK
          /\ http.body resp = http.Bytes (json.Document doc))
  /\ (forall r,
        (Client.Timeseries c world timestep itemID log).1 = (r, None) ->
        exists resp doc,
          answered c (Client.Timeseries c world timestep itemID) log resp
            (r, None)
          /\ http.StatusCode resp = http.StatusOK
          /\ http.body resp = http.Bytes (json.Document doc)).
Proof.
  destruct (on_invalid order) as (I1 & I2 & I3 & I4).
  unfold answered.
  rewrite LatestPrices_eq, ItemMapping_eq, PriceData_eq, Timeseries_eq.
  split; [|split; [|split]]; intros r H.
  3: destruct (_ && _); [done|].
  all: by apply outcome_success in H.
Qed.

Lemma success_needs_200_and_json_witness :
  exists resp doc,
    answered (NewClient "osrswiki-cli/0.0.1" (fun _ => http.Responded (ok two_items)))
      (Client.ItemMapping
         (NewClient "osrswiki-cli/0.0.1"
            (fun _ => http.Responded (ok two_items))) WorldRegular)
      [] resp
      ((Client.ItemMapping
          (NewClient "osrswiki-cli/0.0.1"
             (fun _ => http.Responded (ok two_items))) WorldRegular []).1.1,
       None)
    /\ http.StatusCode resp = http.StatusOK
    /\ http.body resp = http.Bytes (json.Document doc).
Proof.
  apply (proj1 (proj2
           (success_needs_200_and_json listOrder
              (NewClient "osrswiki-cli/0.0.1"
                 (fun _ => http.Responded (ok two_items)))
              WorldRegular [] OneHour None OneHour 0 []))).
  vm_compute. reflexivity.
Defined.


(** X8: an item identifier written into a request reads back from a
    response key: for every int16, [ParseInt(_, 10, 16)] accepts the decimal
    rendering that LatestPrices and Timeseries put in [id] and returns the
    identifier, which the conversion to int16 leaves alone. *)
Theorem item_id_round_trip z :
  is_int16 z ->
  strconv.ParseInt (strconv.FormatInt (int64 z)) 10 16 = (z, None)
  /\ strconv.ParseInt (strconv.FormatInt z) 10 16 = (z, None)
  /\ int16 z = z.
Proof.
  intros Hz. unfold is_int16 in Hz. rewrite int64_small by lia.
  assert (strconv.ParseInt (strconv.FormatInt z) 10 16 = (z, None)) as Hp.
  { apply ParseInt_FormatInt; [lia|]. by change (16 - 1) with 15. }
  repeat split; try done. by apply ParseInt_16 in Hp as [_ ?].
Qed.

Lemma item_id_round_trip_witness :
  strconv.ParseInt (strconv.FormatInt (int64 (-32768))) 10 16 = (-32768, None)
  /\ strconv.ParseInt (strconv.FormatInt (-32768)) 10 16 = (-32768, None)
  /\ int16 (-32768) = -32768.
Proof. apply (item_id_round_trip (-32768)). unfold is_int16. lia. Defined.

(** ** net/url: targets that always parse *)









(** ** encoding/json: one value that does not fit *)

Lemma saveError_keeps saved new :
  saved <> None -> json.saveError saved new <> None.
Proof. by destruct saved. Qed.

Lemma elements_error {T} (zero : T) (elem : json.Decoder T) xs :
  Exists (fun x => (elem x zero).2 <> None) xs ->
  (json.elements zero elem xs []).2 <> None.
Proof.
  induction 1 as [x xs Hx|x xs _ IH]; cbn [json.elements hd tl];
    destruct (elem x zero) as [t e]; destruct (json.elements zero elem xs [])
    as [ts e']; cbn [snd] in *.
  - by destruct e.
  - by destruct e.
Qed.

Lemma Map_members_error {T} (zero : T) (elem : json.Decoder T)
  (kvs : list (string * json.Value)) :
  forall (m : gmap string T) (e : option json.Error),
  e <> None \/ Exists (fun kx => (elem kx.2 zero).2 <> None) kvs ->
  (fold_left
     (fun '(m, err) '(key, x) =>
        let '(t, e) := elem x zero in (<[key := t]> m, json.saveError err e))
     kvs (m, e)).2 <> None.
Proof.
  induction kvs as [|[key x] rest IH]; intros m e H; cbn [fold_left].
  - destruct H as [H|H]; [done|]. by apply Exists_nil in H.
  - destruct (elem x zero) as [t ex] eqn:Hx. apply IH.
    destruct H as [H|H]; [left; by apply saveError_keeps|].
    apply Exists_cons in H as [H|H]; [|by right].
    left. cbn in H. rewrite Hx in H. cbn in H. by destruct e, ex.
Qed.

(** X10: one value of the payload that does not fit its Go type (a string
    or a fraction where an integer field is, a number where a record is)
    fails the whole call with the unmarshal error: ItemMapping and
    Timeseries for an element of the array, LatestPrices and PriceData for a
    member of the data object. *)
Theorem one_misfit_fails_the_call order c world itemIDs interval timestamp
  timestep itemID log :
  (forall elems r,
     Exists (fun x => (json.Struct ItemMapping_fields x zeroItemMapping).2
                      <> None) elems ->
     answered c (Client.ItemMapping c world) log (ok (json.Array elems)) r ->
     exists cause, r = (None, Some (errUnmarshal cause)))
  /\ (forall elems r,
        Exists (fun x => (json.Struct TimeseriesData_fields x
                            zeroTimeseriesData).2 <> None) elems ->
        answered c (Client.Timeseries c world timestep itemID) log
          (ok (json.Object [("data", json.Array elems)])) r ->
        exists cause, r = (None, Some (errUnmarshal cause)))
  /\ (forall kvs r,
        Exists (fun kx : string * json.Value =>
                  (json.Struct LatestPrice_fields kx.2 zeroLatestPrice).2
                  <> None) kvs ->
        answered c (Client.LatestPrices order c world itemIDs) log
          (ok (json.Object [("data", json.Object kvs)])) r ->
        exists cause, r = (None, Some (errUnmarshal cause)))
  /\ (forall kvs r,
        Exists (fun kx : string * json.Value =>
                  (json.Struct PriceData_fields kx.2 zeroPriceData).2
                  <> None) kvs ->
        answered c (Client.PriceData order c world interval timestamp) log
          (ok (json.Object [("data", json.Object kvs)])) r ->
        exists cause, r = (None, Some (errUnmarshal cause))).
Proof.
  split; [|split; [|split]].
  - intros elems r Hbad Hans.
    destruct (answered_200 order c world itemIDs interval timestamp timestep
                itemID log (ok (json.Array elems)) eq_refl) as (_ & H & _).
    rewrite (H _ Hans). cbn [ok http.body]. rewrite ItemMapping_on_eq.
    cbn [json.Unmarshal json.Slice default].
    apply (elements_error zeroItemMapping) in Hbad.
    destruct (json.elements _ _ _ _) as [ts [e|]]; [by eexists|done].
  - intros elems r Hbad Hans.
    destruct (answered_200 order c world itemIDs interval timestamp timestep
                itemID log (ok (json.Object [("data", json.Array elems)]))
                eq_refl) as (_ & _ & _ & H).
    rewrite (H _ Hans). cbn [ok http.body]. rewrite Timeseries_on_eq.
    cbn [json.Unmarshal]. rewrite single_data_member.
    cbn [json.Slice default].
    apply (elements_error zeroTimeseriesData) in Hbad.
    destruct (json.elements _ _ _ _) as [ts [e|]]; [by eexists|done].
  - intros kvs r Hbad Hans.
    destruct (answered_200 order c world itemIDs interval timestamp timestep
                itemID log (ok (json.Object [("data", json.Object kvs)]))
                eq_refl) as (H & _).
    rewrite (H _ Hans). cbn [ok http.body]. rewrite LatestPrices_on_eq.
    cbn [json.Unmarshal]. rewrite single_data_member. cbn [json.Map default].
    pose proof (Map_members_error zeroLatestPrice
                  (json.Struct LatestPrice_fields) kvs ∅ None (or_intror Hbad))
      as Herr.
    destruct (fold_left _ kvs _) as [m' [e|]]; [by eexists|done].
  - intros kvs r Hbad Hans.
    destruct (answered_200 order c world itemIDs interval timestamp timestep
                itemID log (ok (json.Object [("data", json.Object kvs)]))
                eq_refl) as (_ & _ & H & _).
    rewrite (H _ Hans). cbn [ok http.body]. rewrite PriceData_on_eq.
    cbn [json.Unmarshal]. rewrite single_data_member. cbn [json.Map default].
    pose proof (Map_members_error zeroPriceData
                  (json.Struct PriceData_fields) kvs ∅ None (or_intror Hbad))
      as Herr.
    destruct (fold_left _ kvs _) as [m' [e|]]; [by eexists|done].
Qed.

Lemma one_misfit_fails_the_call_witness :
  exists cause,
    (Client.LatestPrices listOrder
       (NewClient "osrswiki-cli/0.0.1"
          (fun _ => http.Responded
             (ok (json.Object
                    [("data",
                      json.Object
                        [("4151", price "1000" "1700000000" "950" "1700000100");
                         ("2", price "160.5" "1700000000" "150"
                                 "1700000100")])]))))
       WorldRegular [] []).1
    = (None, Some (errUnmarshal cause)).
Proof.
  refine (proj1 (proj2 (proj2
            (one_misfit_fails_the_call listOrder
               (NewClient "osrswiki-cli/0.0.1"
                  (fun _ => http.Responded
                     (ok (json.Object
                            [("data",
                              json.Object
                                [("4151", price "1000" "1700000000" "950"
                                            "1700000100");
                                 ("2", price "160.5" "1700000000" "150"
                                         "1700000100")])]))))
               WorldRegular [] OneHour None OneHour 0 [])))
            [("4151", price "1000" "1700000000" "950" "1700000100");
             ("2", price "160.5" "1700000000" "150" "1700000100")] _ _ _).
  - apply Exists_cons. right. apply Exists_cons. left. vm_compute. discriminate.
  - eexists. split; [vm_compute; reflexivity | reflexivity].
Defined.

(** ** Records read back from the JSON that spells them *)

Lemma Int_FormatInt z old :
  is_int64 z -> json.Int (json.Number (strconv.FormatInt z)) old = (z, None).
Proof.
  intros Hz. cbn [json.Int]. by rewrite ParseInt_FormatInt; [|lia|].
Qed.

Ltac read_back :=
  repeat (cbn -[json.Int strconv.FormatInt]; rewrite ?Int_FormatInt by done);
  reflexivity.

Lemma LatestPrice_read_back p :
  LatestPrice_ok p ->
  json.Struct LatestPrice_fields (LatestPrice_json p) zeroLatestPrice = (p, None).
Proof.
  destruct p as [h ht l lt]. intros (? & ? & ? & ?).
  cbn [High HighTime Low LowTime] in *.
  unfold LatestPrice_json, price, json.Struct.
  cbn [High HighTime Low LowTime fold_left]. read_back.
Qed.

Lemma PriceData_read_back p :
  PriceData_ok p ->
  json.Struct PriceData_fields (PriceData_json p) zeroPriceData = (p, None).
Proof.
  destruct p as [a b c d]. intros (? & ? & ? & ?).
  cbn [AvgHighPrice HighPriceVolume AvgLowPrice LowPriceVolume] in *.
  unfold PriceData_json, json.Struct.
  cbn [AvgHighPrice HighPriceVolume AvgLowPrice LowPriceVolume fold_left].
  read_back.
Qed.

Lemma TimeseriesData_read_back p :
  TimeseriesData_ok p ->
  json.Struct TimeseriesData_fields (TimeseriesData_json p) zeroTimeseriesData
  = (p, None).
Proof.
  destruct p as [t a b c d]. intros (? & ? & ? & ? & ?).
  cbn [Timestamp TsAvgHighPrice TsAvgLowPrice TsHighPriceVolume
       TsLowPriceVolume] in *.
  unfold TimeseriesData_json, json.Struct.
  cbn [Timestamp TsAvgHighPrice TsAvgLowPrice TsHighPriceVolume
       TsLowPriceVolume fold_left].
  read_back.
Qed.

Lemma ItemMapping_read_back p :
  ItemMapping_ok p ->
  json.Struct ItemMapping_fields (ItemMapping_json p) zeroItemMapping
  = (p, None).
Proof.
  destruct p as [id icon name examine members value high low limit].
  intros (? & ? & ? & ? & ?).
  cbn [ID Icon Name Examine Members Value HighAlch LowAlch Limit] in *.
  unfold ItemMapping_json, item, json.Struct.
  cbn [ID Icon Name Examine Members Value HighAlch LowAlch Limit fold_left].
  read_back.
Qed.

Lemma elements_read_back {T} (zero : T) (elem : json.Decoder T)
  (enc : T -> json.Value) (ok_ : T -> Prop) ps :
  (forall p, ok_ p -> elem (enc p) zero = (p, None)) ->
  Forall ok_ ps ->
  json.elements zero elem (map enc ps) [] = (ps, None).
Proof.
  intros Henc. induction 1 as [|p ps Hp _ IH]; [done|].
  cbn [map json.elements hd tl]. by rewrite (Henc p Hp), IH.
Qed.

(** X11: ItemMapping and Timeseries hand back exactly the records the
    response spells, in its order: a body that is the array of the JSON
    objects of [ps] (under [data] for Timeseries) gives [ps], whatever the
    records are, as long as their integer fields are int64 values. *)
Theorem sequences_read_back c world timestep itemID log :
  (forall ps r,
     Forall ItemMapping_ok ps ->
     answered c (Client.ItemMapping c world) log
       (ok (json.Array (map ItemMapping_json ps))) r ->
     r = (Some ps, None))
  /\ (forall ps r,
        Forall TimeseriesData_ok ps ->
        answered c (Client.Timeseries c world timestep itemID) log
          (ok (json.Object [("data", json.Array (map TimeseriesData_json ps))]))
          r ->
        r = (Some ps, None)).
Proof.
  split; intros ps r Hps Hans.
  - destruct (answered_200 listOrder c world [] timestep None timestep itemID
                log (ok (json.Array (map ItemMapping_json ps))) eq_refl)
      as (_ & H & _).
    rewrite (H _ Hans). cbn [ok http.body]. rewrite ItemMapping_on_eq.
    cbn [json.Unmarshal json.Slice default].
    by rewrite (elements_read_back _ _ _ _ _ ItemMapping_read_back Hps).
  - destruct (answered_200 listOrder c world [] timestep None timestep itemID
                log
                (ok (json.Object
                       [("data", json.Array (map TimeseriesData_json ps))]))
                eq_refl) as (_ & _ & _ & H).
    rewrite (H _ Hans). cbn [ok http.body]. rewrite Timeseries_on_eq.
    cbn [json.Unmarshal]. rewrite single_data_member. cbn [json.Slice default].
    by rewrite (elements_read_back _ _ _ _ _ TimeseriesData_read_back Hps).
Qed.

Lemma sequences_read_back_witness :
  (Client.Timeseries
     (NewClient "osrswiki-cli/0.0.1"
        (fun _ => http.Responded
           (ok (json.Object
                  [("data",
                    json.Array
                      (map TimeseriesData_json
                         [ {| Timestamp := 1700000000; TsAvgHighPrice := 160;
                              TsAvgLowPrice := 150; TsHighPriceVolume := 9000;
                              TsLowPriceVolume := 8000 |};
                           {| Timestamp := 1700000300; TsAvgHighPrice := 161;
                              TsAvgLowPrice := 151; TsHighPriceVolume := 0;
                              TsLowPriceVolume := 12 |} ]))]))))
     WorldRegular FiveMinutes 2 []).1
  = (Some [ {| Timestamp := 1700000000; TsAvgHighPrice := 160;
               TsAvgLowPrice := 150; TsHighPriceVolume := 9000;
               TsLowPriceVolume := 8000 |};
            {| Timestamp := 1700000300; TsAvgHighPrice := 161;
               TsAvgLowPrice := 151; TsHighPriceVolume := 0;
               TsLowPriceVolume := 12 |} ], None).
Proof.
  refine (proj2 (sequences_read_back
                   (NewClient "osrswiki-cli/0.0.1"
                      (fun _ => http.Responded
                         (ok (json.Object
                                [("data",
                                  json.Array
                                    (map TimeseriesData_json
                                       [ {| Timestamp := 1700000000;
                                            TsAvgHighPrice := 160;
                                            TsAvgLowPrice := 150;
                                            TsHighPriceVolume := 9000;
                                            TsLowPriceVolume := 8000 |};
                                         {| Timestamp := 1700000300;
                                            TsAvgHighPrice := 161;
                                            TsAvgLowPrice := 151;
                                            TsHighPriceVolume := 0;
                                            TsLowPriceVolume := 12 |} ]))]))))
                   WorldRegular FiveMinutes 2 [])
            [ {| Timestamp := 1700000000; TsAvgHighPrice := 160;
                 TsAvgLowPrice := 150; TsHighPriceVolume := 9000;
                 TsLowPriceVolume := 8000 |};
              {| Timestamp := 1700000300; TsAvgHighPrice := 161;
                 TsAvgLowPrice := 151; TsHighPriceVolume := 0;
                 TsLowPriceVolume := 12 |} ] _ _ _).
  - repeat constructor; unfold is_int64; cbn; lia.
  - eexists. split; [vm_compute; reflexivity | reflexivity].
Defined.

Lemma elem_of_data_of {V} (enc : V -> json.Value) (entries : list (Z * V)) key x :
  (key, x) ∈ data_of enc entries
  <-> exists id v, (id, v) ∈ entries /\ key = strconv.FormatInt id /\ x = enc v.
Proof.
  unfold data_of. rewrite list_elem_of_In, in_map_iff. split.
  - intros ([id v] & [= <- <-] & Hin%list_elem_of_In). by exists id, v.
  - intros (id & v & Hin%list_elem_of_In & -> & ->). by exists (id, v).
Qed.

(** The key loop on the data object of [entries]. *)
Lemma data_of_read_back {V} (zero : V) (elem : json.Decoder V)
  (enc : V -> json.Value) (ok_ : V -> Prop) order
  (body : string -> V -> gmap Z V -> gmap Z V + (option (gmap Z V) * option error))
  (entries : list (Z * V)) rsp err :
  (forall key v s,
     body key v s =
       let '(itemID, err) := strconv.ParseInt key 10 16 in
       match err with
       | Some err => inr (None, Some (errParsingItemID err))
       | None => inl (<[int16 itemID := v]> s)
       end) ->
  (forall p, ok_ p -> elem (enc p) zero = (p, None)) ->
  NoDup entries.*1 ->
  Forall (fun e => is_int16 e.1 /\ ok_ e.2) entries ->
  json.Struct (response_fields (json.Map zero elem))
    (json.Object [("data", json.Object (data_of enc entries))])
    {| Data := None |} = (rsp, err) ->
  err = None
  /\ forRange body (mapiter order V (default ∅ (Data rsp))) ∅
     = inl (list_to_map entries).
Proof.
  intros body_eq Henc Hnodup Hok Hdec. rewrite Forall_forall in Hok.
  assert (forall id, is_int16 id ->
            strconv.ParseInt (strconv.FormatInt id) 10 16 = (id, None)) as Hrt.
  { intros id Hid. apply ParseInt_FormatInt; [lia|]. by change (16 - 1) with 15. }
  eapply (keyed_payload _ _ order _ body) in Hdec
    as (-> & m & -> & Hcover & Hfrom); [|done|..].
  - split; [done|]. f_equal. apply map_eq. intros id. apply option_eq. intros v.
    rewrite <- elem_of_list_to_map by done. split.
    + intros (key & x & (id' & v' & Hin & -> & ->)%elem_of_data_of & Hp & ->)%Hfrom.
      destruct (Hok _ Hin) as [Hid Hv]. cbn [fst snd] in *.
      rewrite (Hrt _ Hid) in Hp. injection Hp as <-. by rewrite (Henc _ Hv).
    + intros Hin. destruct (Hok _ Hin) as [Hid Hv]. cbn [fst snd] in *.
      destruct (Hcover (strconv.FormatInt id) (enc v)) as (n & Hp & [v' Hv']).
      { apply elem_of_data_of. by exists id, v. }
      rewrite (Hrt _ Hid) in Hp. injection Hp as <-. rewrite Hv'. f_equal.
      apply Hfrom in Hv'
        as (key & x & (id' & v'' & Hin' & -> & ->)%elem_of_data_of & Hp & ->).
      destruct (Hok _ Hin') as [Hid' Hv'']. cbn [fst snd] in *.
      rewrite (Hrt _ Hid') in Hp. injection Hp as ->.
      rewrite (Henc _ Hv''). cbn [fst].
      apply (elem_of_list_to_map (M := gmap Z) _ _ _ Hnodup) in Hin, Hin'.
      congruence.
  - apply Forall_forall. intros [key x] (id & v & Hin & -> & ->)%elem_of_data_of.
    destruct (Hok _ Hin) as [_ Hv]. cbn [fst snd] in *. by rewrite (Henc _ Hv).
  - apply Forall_forall. intros [key x] (id & v & Hin & -> & ->)%elem_of_data_of.
    destruct (Hok _ Hin) as [Hid _]. cbn [fst snd] in *. by rewrite (Hrt _ Hid).
Qed.

(** X12: LatestPrices and PriceData hand back exactly the mapping the
    response spells: when the data object holds, under the decimal
    rendering of each identifier of [entries], the JSON object of its
    record, the result is the map of [entries], for pairwise distinct int16
    identifiers and int64 fields, whatever order the runtime ranges in. *)
Theorem mappings_read_back order c world itemIDs interval timestamp log :
  (forall (entries : list (Z * LatestPrice)) r,
     NoDup entries.*1 ->
     Forall (fun e => is_int16 e.1 /\ LatestPrice_ok e.2) entries ->
     answered c (Client.LatestPrices order c world itemIDs) log
       (ok (json.Object
              [("data", json.Object (data_of LatestPrice_json entries))])) r ->
     r = (Some (list_to_map entries), None))
  /\ (forall (entries : list (Z * PriceData)) r,
        NoDup entries.*1 ->
        Forall (fun e => is_int16 e.1 /\ PriceData_ok e.2) entries ->
        answered c (Client.PriceData order c world interval timestamp) log
          (ok (json.Object
                 [("data", json.Object (data_of PriceData_json entries))])) r ->
        r = (Some (list_to_map entries), None)).
Proof.
  split; intros entries r Hnodup Hok Hans.
  - match type of Hans with
    | answered _ _ _ ?resp _ =>
        destruct (answered_200 order c world itemIDs interval timestamp
                    interval 0 log resp eq_refl) as (H & _)
    end.
    rewrite (H _ Hans). cbn [ok http.body]. rewrite LatestPrices_on_eq.
    cbn [json.Unmarshal].
    destruct (json.Struct _ _ _) as [rsp err] eqn:Hdec.
    eapply (data_of_read_back _ _ _ _ order) in Hdec as [-> ->];
      [done|done|apply LatestPrice_read_back|done..].
  - match type of Hans with
    | answered _ _ _ ?resp _ =>
        destruct (answered_200 order c world itemIDs interval timestamp
                    interval 0 log resp eq_refl) as (_ & _ & H & _)
    end.
    rewrite (H _ Hans). cbn [ok http.body]. rewrite PriceData_on_eq.
    cbn [json.Unmarshal].
    destruct (json.Struct _ _ _) as [rsp err] eqn:Hdec.
    eapply (data_of_read_back _ _ _ _ order) in Hdec as [-> ->];
      [done|done|apply PriceData_read_back|done..].
Qed.

Lemma mappings_read_back_witness :
  (Client.LatestPrices listOrder
     (NewClient "osrswiki-cli/0.0.1"
        (fun _ => http.Responded
           (ok (json.Object
                  [("data",
                    json.Object
                      (data_of LatestPrice_json
                         [(4151, {| High := 1000; HighTime := 1700000000;
                                    Low := 950; LowTime := 1700000100 |});
                          (-2, {| High := 160; HighTime := 1700000000;
                                  Low := 150; LowTime := 1700000100 |})]))]))))
     WorldRegular [4151; -2] []).1
  = (Some (list_to_map
             [(4151, {| High := 1000; HighTime := 1700000000; Low := 950;
                        LowTime := 1700000100 |});
              (-2, {| High := 160; HighTime := 1700000000; Low := 150;
                      LowTime := 1700000100 |})]), None).
Proof.
  refine (proj1 (mappings_read_back listOrder
                   (NewClient "osrswiki-cli/0.0.1"
                      (fun _ => http.Responded
                         (ok (json.Object
                                [("data",
                                  json.Object
                                    (data_of LatestPrice_json
                                       [(4151, {| High := 1000;
                                                  HighTime := 1700000000;
                                                  Low := 950;
                                                  LowTime := 1700000100 |});
                                        (-2, {| High := 160;
                                                HighTime := 1700000000;
                                                Low := 150;
                                                LowTime := 1700000100 |})]))]))))
                   WorldRegular [4151; -2] OneHour None [])
            [(4151, {| High := 1000; HighTime := 1700000000; Low := 950;
                       LowTime := 1700000100 |});
             (-2, {| High := 160; HighTime := 1700000000; Low := 150;
                     LowTime := 1700000100 |})] _ _ _ _).
  - apply (bool_decide_unpack _). vm_compute. reflexivity.
  - repeat constructor; unfold is_int16, is_int64; cbn; lia.
  - eexists. split; [vm_compute; reflexivity | reflexivity].
Defined.

(** ** What does not depend on the order of [range] *)

Lemma forRange_fails_iff {V}
  (body : string -> V -> gmap Z V -> gmap Z V + (option (gmap Z V) * option error))
  entries s :
  (forall key v s,
     body key v s =
       let '(itemID, err) := strconv.ParseInt key 10 16 in
       match err with
       | Some err => inr (None, Some (errParsingItemID err))
       | None => inl (<[int16 itemID := v]> s)
       end) ->
  (exists m, forRange body entries s = inl m)
  <-> Forall (fun kv => (strconv.ParseInt kv.1 10 16).2 = None) entries.
Proof.
  intros body_eq.
  split; [|intros Hall; apply (forRange_all_parse body entries body_eq Hall)].
  intros [m Hm]. apply Forall_forall. intros [key v] Hin. cbn [fst].
  destruct (strconv.ParseInt key 10 16).2 eqn:Hp; [|done].
  destruct (forRange_bad body body_eq entries key v s Hin) as [cause Hbad];
    [by rewrite Hp|]. congruence.
Qed.

Lemma forRange_dom {V}
  (body : string -> V -> gmap Z V -> gmap Z V + (option (gmap Z V) * option error))
  entries m n :
  (forall key v s,
     body key v s =
       let '(itemID, err) := strconv.ParseInt key 10 16 in
       match err with
       | Some err => inr (None, Some (errParsingItemID err))
       | None => inl (<[int16 itemID := v]> s)
       end) ->
  forRange body entries ∅ = inl m ->
  is_Some (m !! n)
  <-> exists key v, (key, v) ∈ entries /\ strconv.ParseInt key 10 16 = (n, None).
Proof.
  intros body_eq Hm. split.
  - intros [v Hv].
    destruct (forRange_lookup body body_eq _ _ _ _ _ Hm Hv)
      as [Hempty|(key & Hin & Hp)]; [by rewrite lookup_empty in Hempty|].
    by exists key, v.
  - intros (key & v & Hin & Hp).
    destruct (forRange_covers body body_eq _ _ _ _ _ Hm Hin) as (n' & Hp' & Hsome).
    congruence.
Qed.

(** Two runs of the key loop over the same map, in two orders. *)
Lemma key_loop_orders {V} (o1 o2 : MapOrder)
  (body : string -> V -> gmap Z V -> gmap Z V + (option (gmap Z V) * option error))
  (data : gmap string V) :
  (forall key v s,
     body key v s =
       let '(itemID, err) := strconv.ParseInt key 10 16 in
       match err with
       | Some err => inr (None, Some (errParsingItemID err))
       | None => inl (<[int16 itemID := v]> s)
       end) ->
  match forRange body (mapiter o1 V data) ∅, forRange body (mapiter o2 V data) ∅
  with
  | inl m1, inl m2 => dom m1 = dom m2
  | inr r1, inr r2 =>
      exists c1 c2, r1 = (None, Some (errParsingItemID c1))
                    /\ r2 = (None, Some (errParsingItemID c2))
  | _, _ => False
  end.
Proof.
  intros body_eq.
  assert (forall kv, kv ∈ mapiter o1 V data <-> kv ∈ mapiter o2 V data) as Hsame.
  { intros [key v]. by rewrite !mapiter_elem_of. }
  destruct (forRange body (mapiter o1 V data) ∅) as [m1|r1] eqn:H1;
    destruct (forRange body (mapiter o2 V data) ∅) as [m2|r2] eqn:H2.
  - apply set_eq. intros n. rewrite !elem_of_dom.
    rewrite (forRange_dom body _ _ _ body_eq H1),
      (forRange_dom body _ _ _ body_eq H2).
    by setoid_rewrite Hsame.
  - assert (exists m, forRange body (mapiter o2 V data) ∅ = inl m) as [m Hm].
    { apply (forRange_fails_iff body _ _ body_eq). apply Forall_forall.
      intros kv Hin%Hsame. revert kv Hin. apply Forall_forall.
      apply (forRange_fails_iff body _ ∅ body_eq). by eexists. }
    congruence.
  - assert (exists m, forRange body (mapiter o1 V data) ∅ = inl m) as [m Hm].
    { apply (forRange_fails_iff body _ _ body_eq). apply Forall_forall.
      intros kv Hin%Hsame. revert kv Hin. apply Forall_forall.
      apply (forRange_fails_iff body _ ∅ body_eq). by eexists. }
    congruence.
  - apply (forRange_early body body_eq) in H1 as [c1 ->].
    apply (forRange_early body body_eq) in H2 as [c2 ->]. by exists c1, c2.
Qed.


Lemma outcome_orders {V} c url query
  (on1 on2 : json.Text -> option (gmap Z V) * option error) log :
  (forall b, same_up_to_order (on1 b) (on2 b)) ->
  same_up_to_order (outcome c url query on1 log).1 (outcome c url query on2 log).1
  /\ (outcome c url query on1 log).2 = (outcome c url query on2 log).2.
Proof.
  intros Hon. unfold outcome. destruct (url.Parse url); [by split; [left|]|].
  split; [|done]. cbn [fst].
  destruct (httpClient c _) as [?|resp]; [by left|].
  destruct (_ =? _); [|by left].
  destruct (http.body resp) as [?|b]; [by left | apply Hon].
Qed.

(** X13: the order in which Go ranges over the decoded map changes neither
    what LatestPrices and PriceData send nor whether they succeed: two runs
    in two orders both fail, with the same error or each with an
    item-identifier error, or both succeed, with mappings over the same
    identifiers. *)
Theorem range_order_is_immaterial o1 o2 c world itemIDs interval timestamp log :
  (same_up_to_order (Client.LatestPrices o1 c world itemIDs log).1
     (Client.LatestPrices o2 c world itemIDs log).1
   /\ (Client.LatestPrices o1 c world itemIDs log).2
      = (Client.LatestPrices o2 c world itemIDs log).2)
  /\ (same_up_to_order (Client.PriceData o1 c world interval timestamp log).1
        (Client.PriceData o2 c world interval timestamp log).1
      /\ (Client.PriceData o1 c world interval timestamp log).2
         = (Client.PriceData o2 c world interval timestamp log).2).
Proof.
  rewrite !LatestPrices_eq, !PriceData_eq. split.
  - apply outcome_orders. intros b. rewrite !LatestPrices_on_eq.
    destruct (json.Unmarshal _ _ _) as [rsp [e|]]; [by left|].
    pose proof (key_loop_orders o1 o2
      (fun itemIDStr data (result : gmap Z LatestPrice) =>
         let '(itemID, err) := strconv.ParseInt itemIDStr 10 16 in
         match err with
         | Some err => inr (None, Some (errParsingItemID err))
         | None => inl (<[int16 itemID := data]> result)
         end) (default ∅ (Data rsp)) (fun _ _ _ => eq_refl)) as H.
    cbv beta in H.
    destruct (forRange _ (mapiter o1 _ _) _), (forRange _ (mapiter o2 _ _) _);
      try done.
    destruct H as (c1 & c2 & -> & ->). right. by exists c1, c2.
  - destruct (_ && _); [by split; [left|]|].
    apply outcome_orders. intros b. rewrite !PriceData_on_eq.
    destruct (json.Unmarshal _ _ _) as [rsp [e|]]; [by left|].
    pose proof (key_loop_orders o1 o2
      (fun itemIDStr data (result : gmap Z PriceData) =>
         let '(itemID, err) := strconv.ParseInt itemIDStr 10 16 in
         match err with
         | Some err => inr (None, Some (errParsingItemID err))
         | None => inl (<[int16 itemID := data]> result)
         end) (default ∅ (Data rsp)) (fun _ _ _ => eq_refl)) as H.
    cbv beta in H.
    destruct (forRange _ (mapiter o1 _ _) _), (forRange _ (mapiter o2 _ _) _);
      try done.
    destruct H as (c1 & c2 & -> & ->). right. by exists c1, c2.
Qed.

(** ** Keys that parse to the same identifier *)

Lemma size_list_to_set_le (l : list Z) :
  (size (list_to_set l : gset Z) <= length l)%nat.
Proof.
  induction l as [|x l IH]; [by rewrite list_to_set_nil, size_empty|].
  rewrite list_to_set_cons, size_union_alt, size_singleton. cbn [length].
  pose proof (subseteq_size (list_to_set l ∖ {[x]} : gset Z) (list_to_set l)
                (subseteq_difference_l _ _ _ (reflexivity _))). lia.
Qed.

Lemma size_list_to_set_lt (l : list Z) :
  ~ NoDup l -> (size (list_to_set l : gset Z) < length l)%nat.
Proof.
  induction l as [|x l IH]; intros Hdup; [by destruct Hdup; constructor|].
  rewrite list_to_set_cons. cbn [length].
  destruct (decide (x ∈ l)) as [Hin|Hnin].
  - rewrite (subseteq_union_1_L ({[x]} : gset Z) (list_to_set l))
      by (by apply singleton_subseteq_l, elem_of_list_to_set).
    pose proof (size_list_to_set_le l). lia.
  - assert (~ NoDup l) as Hl by (intros ?; apply Hdup; by constructor).
    specialize (IH Hl). rewrite size_union_alt, size_singleton.
    pose proof (subseteq_size (list_to_set l ∖ {[x]} : gset Z) (list_to_set l)
                  (subseteq_difference_l _ _ _ (reflexivity _))). lia.
Qed.

Lemma NoDup_map_inj {A} (g : A -> Z) (l : list A) a b :
  NoDup (map g l) -> a ∈ l -> b ∈ l -> g a = g b -> a = b.
Proof.
  induction l as [|x l IH]; cbn [map]; intros Hnd Ha Hb Hg.
  - by apply elem_of_nil in Ha.
  - apply NoDup_cons in Hnd as [Hx Hnd].
    apply elem_of_cons in Ha as [->|Ha]; apply elem_of_cons in Hb as [->|Hb].
    + done.
    + destruct Hx. rewrite Hg. apply list_elem_of_In, in_map.
      by apply list_elem_of_In.
    + destruct Hx. rewrite <- Hg. apply list_elem_of_In, in_map.
      by apply list_elem_of_In.
    + by apply IH.
Qed.

Lemma Map_members_size {T} (zero : T) (elem : json.Decoder T)
  (kvs : list (string * json.Value)) :
  forall (m : gmap string T) (e : option json.Error) (m' : gmap string T) e',
  fold_left
    (fun '(m, err) '(key, x) =>
       let '(t, e) := elem x zero in (<[key := t]> m, json.saveError err e))
    kvs (m, e) = (m', e') ->
  (size m' <= size m + length kvs)%nat.
Proof.
  induction kvs as [|[key x] rest IH]; intros m e m' e' H; cbn [fold_left] in H.
  - injection H as <- <-. cbn [length]. lia.
  - destruct (elem x zero) as [t ex]. apply IH in H. cbn [length].
    pose proof (map_size_insert key t m) as Hs.
    destruct (m !! key); cbn in Hs; lia.
Qed.

(** The mapping built from a data object never has more entries than the
    object has members, and fewer when two keys parse alike. *)
Lemma key_loop_size {V} (zero : V) (elem : json.Decoder V) order
  (body : string -> V -> gmap Z V -> gmap Z V + (option (gmap Z V) * option error))
  kvs rsp err m :
  (forall key v s,
     body key v s =
       let '(itemID, err) := strconv.ParseInt key 10 16 in
       match err with
       | Some err => inr (None, Some (errParsingItemID err))
       | None => inl (<[int16 itemID := v]> s)
       end) ->
  json.Struct (response_fields (json.Map zero elem))
    (json.Object [("data", json.Object kvs)]) {| Data := None |} = (rsp, err) ->
  forRange body (mapiter order V (default ∅ (Data rsp))) ∅ = inl m ->
  (size m <= length kvs)%nat
  /\ forall k1 k2 x1 x2 n,
       (k1, x1) ∈ kvs -> (k2, x2) ∈ kvs -> k1 <> k2 ->
       strconv.ParseInt k1 10 16 = (n, None) ->
       strconv.ParseInt k2 10 16 = (n, None) ->
       (size m < length kvs)%nat.
Proof.
  intros body_eq. rewrite single_data_member. cbn [json.Map default].
  destruct (fold_left _ kvs _) as [m' e'] eqn:Hm. intros [= <- <-].
  cbn [Data default]. intros Hloop.
  pose proof (Map_members_size _ _ _ _ _ _ _ Hm) as Hsize.
  rewrite map_size_empty in Hsize.
  apply Map_members in Hm as (Hin & _).
  set (entries := mapiter order V m') in *.
  set (ids := map (fun kv : string * V => (strconv.ParseInt kv.1 10 16).1) entries).
  assert (length entries = size m') as Hlen.
  { unfold entries. by rewrite (mapiter_perm order V m'), length_map_to_list. }
  assert (dom m = list_to_set ids) as Hdom.
  { apply set_eq. intros n. rewrite elem_of_dom, elem_of_list_to_set.
    rewrite (forRange_dom body _ _ _ body_eq Hloop).
    unfold ids. rewrite list_elem_of_In, in_map_iff. split.
    - intros (key & v & Hkv & Hp). exists (key, v). cbn [fst].
      rewrite Hp. split; [done|]. by apply list_elem_of_In.
    - intros ([key v] & Hn & Hkv%list_elem_of_In). cbn [fst] in Hn.
      exists key, v. split; [done|].
      assert (Forall (fun kv => (strconv.ParseInt kv.1 10 16).2 = None) entries)
        as Hall by (apply (forRange_fails_iff body _ ∅ body_eq); by eexists).
      rewrite Forall_forall in Hall. specialize (Hall _ Hkv). cbn [fst] in Hall.
      destruct (strconv.ParseInt key 10 16) as [i e]. cbn in *. by subst. }
  assert (length ids = length entries) as Hids by (unfold ids; apply length_map).
  rewrite <- size_dom, Hdom. split.
  - pose proof (size_list_to_set_le ids). lia.
  - intros k1 k2 x1 x2 n H1 H2 Hne Hp1 Hp2.
    destruct (Hin _ _ H1) as [v1 Hv1]. destruct (Hin _ _ H2) as [v2 Hv2].
    apply (mapiter_elem_of order) in Hv1, Hv2. fold entries in Hv1, Hv2.
    assert (~ NoDup ids) as Hdup.
    { intros Hnd.
      assert ((k1, v1) = (k2, v2)) as Heq; [|congruence].
      apply (NoDup_map_inj _ _ _ _ Hnd Hv1 Hv2). cbn [fst]. by rewrite Hp1, Hp2. }
    pose proof (size_list_to_set_lt ids Hdup). lia.
Qed.

(** X14: the mapping LatestPrices and PriceData return never has more
    entries than the data object has members, and it has fewer as soon as
    two different keys parse to the same identifier (as 1 and 01 do): one
    of the two records is dropped without an error. *)
Theorem colliding_keys_lose_an_entry order c world itemIDs interval timestamp
  log kvs :
  (forall (m : gmap Z LatestPrice),
     answered c (Client.LatestPrices order c world itemIDs) log
       (ok (json.Object [("data", json.Object kvs)])) (Some m, None) ->
     (size m <= length kvs)%nat
     /\ forall k1 k2 x1 x2 n,
          (k1, x1) ∈ kvs -> (k2, x2) ∈ kvs -> k1 <> k2 ->
          strconv.ParseInt k1 10 16 = (n, None) ->
          strconv.ParseInt k2 10 16 = (n, None) ->
          (size m < length kvs)%nat)
  /\ (forall (m : gmap Z PriceData),
        answered c (Client.PriceData order c world interval timestamp) log
          (ok (json.Object [("data", json.Object kvs)])) (Some m, None) ->
        (size m <= length kvs)%nat
        /\ forall k1 k2 x1 x2 n,
             (k1, x1) ∈ kvs -> (k2, x2) ∈ kvs -> k1 <> k2 ->
             strconv.ParseInt k1 10 16 = (n, None) ->
             strconv.ParseInt k2 10 16 = (n, None) ->
             (size m < length kvs)%nat).
Proof.
  split; intros m Hans.
  - match type of Hans with
    | answered _ _ _ ?resp _ =>
        destruct (answered_200 order c world itemIDs interval timestamp
                    interval 0 log resp eq_refl) as (H & _)
    end.
    apply H in Hans. cbn [ok http.body] in Hans.
    rewrite LatestPrices_on_eq in Hans. cbn [json.Unmarshal] in Hans.
    destruct (json.Struct _ _ _) as [rsp [e|]] eqn:Hdec; [done|].
    destruct (forRange _ _ _) as [m'|early] eqn:Hloop.
    + injection Hans as ->.
      by eapply (key_loop_size _ _ order _ kvs rsp None m' (fun _ _ _ => eq_refl)).
    + apply forRange_early in Hloop as [cause ->]; done.
  - match type of Hans with
    | answered _ _ _ ?resp _ =>
        destruct (answered_200 order c world itemIDs interval timestamp
                    interval 0 log resp eq_refl) as (_ & _ & H & _)
    end.
    apply H in Hans. cbn [ok http.body] in Hans.
    rewrite PriceData_on_eq in Hans. cbn [json.Unmarshal] in Hans.
    destruct (json.Struct _ _ _) as [rsp [e|]] eqn:Hdec; [done|].
    destruct (forRange _ _ _) as [m'|early] eqn:Hloop.
    + injection Hans as ->.
      by eapply (key_loop_size _ _ order _ kvs rsp None m' (fun _ _ _ => eq_refl)).
    + apply forRange_early in Hloop as [cause ->]; done.
Qed.


Lemma colliding_keys_lose_an_entry_witness :
  lt (size ({[ 1 := {| High := 20; HighTime := 21; Low := 22; LowTime := 23 |} ]}
             : gmap Z LatestPrice)) 2%nat.
Proof.
  refine (proj2 (proj1 (colliding_keys_lose_an_entry listOrder
                          (NewClient "osrswiki-cli/0.0.1"
                             (fun _ => http.Responded twins))
                          WorldRegular [] OneHour None []
                          [("1", price "10" "11" "12" "13");
                           ("01", price "20" "21" "22" "23")])
                   {[ 1 := {| High := 20; HighTime := 21; Low := 22;
                              LowTime := 23 |} ]} _)
            "1" "01" (price "10" "11" "12" "13") (price "20" "21" "22" "23") 1
            _ _ _ _ _).
  - eexists. split; [vm_compute; reflexivity | reflexivity].
  - apply elem_of_cons. left. reflexivity.
  - apply elem_of_cons. right. apply elem_of_cons. left. reflexivity.
  - discriminate.
  - vm_compute. reflexivity.
  - vm_compute. reflexivity.
Defined.

(** Which of two colliding records is kept is up to the order of [range];
    the identifiers of the mapping are not. *)
Example colliding_keys_in_two_orders :
  (Client.LatestPrices listOrder
     (NewClient "osrswiki-cli/0.0.1" (fun _ => http.Responded twins))
     WorldRegular [] []).1
  = (Some {[ 1 := {| High := 20; HighTime := 21; Low := 22; LowTime := 23 |} ]},
     None)
  /\ (Client.LatestPrices reverseOrder
        (NewClient "osrswiki-cli/0.0.1" (fun _ => http.Responded twins))
        WorldRegular [] []).1
     = (Some {[ 1 := {| High := 10; HighTime := 11; Low := 12; LowTime := 13 |} ]},
        None).
Proof. split; vm_compute; reflexivity. Qed.
